(** * Global Superstore dashboard: loader, normalizer and filter

    A shallow embedding of the data pipeline of [app.py]
    ([load_data], [smart_parse_datetime], [preprocess], [apply_filters])
    together with the properties its specification states about it.

    The pipeline is written against pandas and streamlit.  The parts of
    those libraries whose result depends on the contents of files or on
    date and number syntax are variables of the section [Pipeline]; the
    parts whose behaviour is fixed by the library interface (label lookup,
    boolean indexing, [dropna], keyword binding of a call) are defined
    here. *)

From Stdlib Require Import String Ascii List Bool Arith ZArith QArith Lia
  Permutation.
Import ListNotations.

Close Scope Q_scope.
Open Scope string_scope.
Open Scope list_scope.

Set Implicit Arguments.

(** ** Python strings

    Strings are byte strings; [lower] and [strip] act on the ASCII range,
    where they agree with [str.lower] and [str.strip]. *)

Module PyStr.

Definition is_upper (c : ascii) : bool :=
  let n := nat_of_ascii c in ((65 <=? n) && (n <=? 90))%nat.

Definition lower_char (c : ascii) : ascii :=
  if is_upper c then ascii_of_nat (nat_of_ascii c + 32) else c.

Fixpoint lower (s : string) : string :=
  match s with
  | EmptyString => EmptyString
  | String c s' => String (lower_char c) (lower s')
  end.

Definition endswith (s suffix : string) : bool :=
  let n := String.length s in
  let k := String.length suffix in
  (k <=? n)%nat && (substring (n - k) k s =? suffix).

(** [str.isspace] on one-byte characters: TAB..CR, FS..US and SPACE. *)
Definition isspace (c : ascii) : bool :=
  let n := nat_of_ascii c in
  (((9 <=? n) && (n <=? 13)) || ((28 <=? n) && (n <=? 32)))%nat.

Fixpoint lstrip (s : string) : string :=
  match s with
  | EmptyString => EmptyString
  | String c s' => if isspace c then lstrip s' else s
  end.

Fixpoint rstrip (s : string) : string :=
  match s with
  | EmptyString => EmptyString
  | String c s' =>
      match rstrip s' with
      | EmptyString => if isspace c then EmptyString else String c EmptyString
      | r => String c r
      end
  end.

Definition strip (s : string) : string := rstrip (lstrip s).

End PyStr.

(** ** Cells and series

    A cell is what a pandas object column can hold in this program.  [NA]
    stands for every value [isna] reports as null ([None], [NaN], [NaT]).
    A [Timestamp] counts nanoseconds since the epoch, a [Date] counts
    days. *)

Inductive cell : Type :=
| NA
| Str (s : string)
| Num (x : Q)
| Timestamp (ns : Z)
| Date (days : Z).

#[warning="-notation-for-abbreviation"]
Notation series := (list cell) (only parsing).

Definition isna (c : cell) : bool :=
  match c with NA => true | _ => false end.

Definition notna (c : cell) : bool := negb (isna c).

Definition cell_eqb (a b : cell) : bool :=
  match a, b with
  | NA, NA => true
  | Str s, Str t => (s =? t)%string
  | Num x, Num y => Qeq_bool x y
  | Timestamp x, Timestamp y => (x =? y)%Z
  | Date x, Date y => (x =? y)%Z
  | _, _ => false
  end.

(** [Series.isin(values)] for one cell. *)
Definition isin (values : list cell) (c : cell) : bool :=
  existsb (cell_eqb c) values.

Definition count_true (bs : list bool) : nat := length (filter id bs).

(** [Series.mean()] of a boolean series: the share of [True], and [NaN]
    (here [None]) for the empty series.  The share is kept as an exact
    rational; a float64 quotient of two integers below 2^53 lies on the
    same side of 0.5 as the exact one. *)
Definition mean (bs : list bool) : option Q :=
  match bs with
  | [] => None
  | _ :: _ => Some (Qmake (Z.of_nat (count_true bs)) (Pos.of_nat (length bs)))
  end.

(** [m > q] where [m] may be [NaN]: every comparison with [NaN] is false. *)
Definition gt (m : option Q) (q : Q) : bool :=
  match m with
  | None => false
  | Some x => negb (Qle_bool x q)
  end.

Definition count_na (s : series) : nat := count_true (map isna s).

(** [.dt.date]: the calendar day of a timestamp. *)
Definition ns_per_day : Z := 86400000000000.

Definition dt_date (c : cell) : cell :=
  match c with
  | Timestamp ns => Date (ns / ns_per_day)
  | _ => NA
  end.

Definition of_datetime (o : option Z) : cell :=
  match o with Some ns => Timestamp ns | None => NA end.

Definition of_numeric (o : option Q) : cell :=
  match o with Some x => Num x | None => NA end.

Definition is_timestamp (c : cell) : bool :=
  match c with Timestamp _ => true | _ => false end.

Definition is_number (c : cell) : bool :=
  match c with Num _ => true | _ => false end.

Definition is_date (c : cell) : bool :=
  match c with Date _ => true | _ => false end.

(** [Series.unique()]: the values in order of first appearance, each
    once; [seen] holds the values met so far. *)
Fixpoint unique_from (seen : list cell) (s : series) : series :=
  match s with
  | [] => []
  | c :: rest =>
      if existsb (cell_eqb c) seen then unique_from seen rest
      else c :: unique_from (c :: seen) rest
  end.

Definition unique (s : series) : series := unique_from [] s.

(** ** Data frames

    A frame is a shared row index and an ordered list of labelled columns.
    pandas keeps every column as long as the index ([aligned]); label
    lookup is by first match, which is what [df[label]] means when labels
    are distinct ([unique_columns]). *)

Record DataFrame : Type := mkDataFrame {
  index : list Z;
  data : list (string * series)
}.

Definition columns (df : DataFrame) : list string := map fst (data df).

(** [label in df.columns] *)
Definition has_column (label : string) (df : DataFrame) : bool :=
  existsb (String.eqb label) (columns df).

Fixpoint lookup {V : Type} (label : string) (d : list (string * V)) : option V :=
  match d with
  | [] => None
  | (l, v) :: d' => if (l =? label)%string then Some v else lookup label d'
  end.

(** [d[label] = v]: replaces the entry of that label, or appends a new
    last entry. *)
Fixpoint assign {V : Type} (label : string) (v : V) (d : list (string * V))
  : list (string * V) :=
  match d with
  | [] => [(label, v)]
  | (l, w) :: d' =>
      if (l =? label)%string then (l, v) :: d' else (l, w) :: assign label v d'
  end.

Definition map_values {V W : Type} (f : V -> W) (d : list (string * V))
  : list (string * W) :=
  map (fun lv => (fst lv, f (snd lv))) d.

(** [df[label] = s] *)
Definition set_column (label : string) (s : series) (df : DataFrame) : DataFrame :=
  {| index := index df; data := assign label s (data df) |}.

Fixpoint zip_with {A B C : Type} (f : A -> B -> C) (xs : list A) (ys : list B)
  : list C :=
  match xs, ys with
  | x :: xs', y :: ys' => f x y :: zip_with f xs' ys'
  | _, _ => []
  end.

(** The entries of [l] at the positions where [mask] is [True]. *)
Fixpoint compress {A : Type} (mask : list bool) (l : list A) : list A :=
  match mask, l with
  | b :: mask', x :: l' => if b then x :: compress mask' l' else compress mask' l'
  | _, _ => []
  end.

(** [df[mask]] for a boolean mask on the rows of [df]. *)
Definition select_rows (mask : list bool) (df : DataFrame) : DataFrame :=
  {| index := compress mask (index df);
     data := map_values (compress mask) (data df) |}.

(** [df.columns = [c.strip() for c in df.columns]] *)
Definition strip_columns (df : DataFrame) : DataFrame :=
  {| index := index df;
     data := map (fun lc => (PyStr.strip (fst lc), snd lc)) (data df) |}.

Definition aligned (df : DataFrame) : bool :=
  forallb (fun lc => length (snd lc) =? length (index df))%nat (data df).

Fixpoint distinct (labels : list string) : bool :=
  match labels with
  | [] => true
  | l :: rest => negb (existsb (String.eqb l) rest) && distinct rest
  end.

Definition unique_columns (df : DataFrame) : bool := distinct (columns df).

Definition wf_df (df : DataFrame) : bool := aligned df && unique_columns df.

(** The rows of a frame, each with its index label and its cells by column
    label. *)
Definition row : Type := Z * list (string * cell).

Definition field (label : string) (r : row) : cell :=
  match lookup label (snd r) with
  | Some c => c
  | None => NA
  end.

Definition set_field (label : string) (c : cell) (r : row) : row :=
  (fst r, assign label c (snd r)).

Fixpoint rows_of (idx : list Z) (d : list (string * series)) : list row :=
  match idx with
  | [] => []
  | i :: idx' =>
      (i, map_values (hd NA) d) :: rows_of idx' (map_values (@tl cell) d)
  end.

Definition rows (df : DataFrame) : list row := rows_of (index df) (data df).

(** ** Exceptions and user-interface events

    A call either returns or raises; on the way it may have written
    messages to the page.  [st.stop()] ends the script run by raising. *)

Inductive exn : Type :=
| FileNotFoundError (file : string)
| KeyError (labels : list string)
| TypeError (keyword : string)
| AttributeError (attribute : string)
| StopException
| ReaderError (what : string).     (* whatever a pandas reader raises *)

Inductive event : Type :=
| st_warning_missing (missing : list string)
| st_error_missing (col : string).

Definition M (A : Type) : Type := list event * (exn + A).

Definition ret {A : Type} (a : A) : M A := ([], inr a).

Definition raise {A : Type} (e : exn) : M A := ([], inl e).

Definition emit (ev : event) : M unit := ([ev], inr tt).

Definition lift {A : Type} (r : exn + A) : M A := ([], r).

Definition bind {A B : Type} (m : M A) (k : A -> M B) : M B :=
  match m with
  | (log, inl e) => (log, inl e)
  | (log, inr a) => let (log', r) := k a in (log ++ log', r)
  end.

Notation "x <- m ;; k" := (bind m (fun x => k))
  (at level 61, m at next level, right associativity).

Definition returned {A : Type} (m : M A) : option A :=
  match snd m with inr a => Some a | inl _ => None end.

Definition raised {A : Type} (m : M A) : option exn :=
  match snd m with inl e => Some e | inr _ => None end.

Fixpoint for_each {S : Type} (items : list string) (body : string -> S -> M S)
  (s : S) : M S :=
  match items with
  | [] => ret s
  | x :: rest => s' <- body x s ;; for_each rest body s'
  end.

(** [df[label]] *)
Definition get_column (label : string) (df : DataFrame) : M series :=
  match lookup label (data df) with
  | Some s => ret s
  | None => raise (KeyError [label])
  end.

(** Truth value of a list. *)
Definition truthy {A : Type} (l : list A) : bool :=
  match l with [] => false | _ :: _ => true end.

(** Row mask of [dropna]: the rows with no null in any of [cols]. *)
Fixpoint notna_all (cols : list series) (n : nat) : list bool :=
  match cols with
  | [] => repeat true n
  | c :: rest => zip_with andb (map notna c) (notna_all rest n)
  end.

Fixpoint lookup_all (labels : list string) (d : list (string * series))
  : list series :=
  match labels with
  | [] => []
  | l :: rest =>
      match lookup l d with
      | Some s => s :: lookup_all rest d
      | None => lookup_all rest d
      end
  end.

(** [df.dropna(subset=labels)]: a label of [subset] that is not a column
    raises [KeyError] with the absent labels. *)
Definition dropna (subset : list string) (df : DataFrame) : M DataFrame :=
  match filter (fun l => negb (has_column l df)) subset with
  | [] =>
      ret (select_rows
             (notna_all (lookup_all subset (data df)) (length (index df))) df)
  | absent => raise (KeyError absent)
  end.

(** Binding the keyword arguments of a call to a function that declares
    the parameters [declared] and no catch-all: the first keyword that is
    not declared raises [TypeError]. *)
Definition bind_keywords (declared : list string) (kwargs : list (string * string))
  : exn + unit :=
  match find (fun kw => negb (existsb (String.eqb (fst kw)) declared)) kwargs with
  | Some kw => inl (TypeError (fst kw))
  | None => inr tt
  end.

(** The keyword parameters of [pandas.read_csv], over its releases. *)
Definition read_csv_parameters : list string :=
  [ "sep"; "delimiter"; "header"; "names"; "index_col"; "usecols"; "squeeze";
    "prefix"; "mangle_dupe_cols"; "dtype"; "engine"; "converters";
    "true_values"; "false_values"; "skipinitialspace"; "skiprows";
    "skipfooter"; "nrows"; "na_values"; "keep_default_na"; "na_filter";
    "verbose"; "skip_blank_lines"; "parse_dates"; "infer_datetime_format";
    "keep_date_col"; "date_parser"; "date_format"; "dayfirst"; "cache_dates";
    "iterator"; "chunksize"; "compression"; "thousands"; "decimal";
    "lineterminator"; "quotechar"; "quoting"; "doublequote"; "escapechar";
    "comment"; "encoding"; "encoding_errors"; "dialect"; "error_bad_lines";
    "warn_bad_lines"; "on_bad_lines"; "delim_whitespace"; "low_memory";
    "memory_map"; "float_precision"; "storage_options"; "dtype_backend" ].

Record UploadedFile : Type := mkUploadedFile {
  name : string;
  content : list Byte.byte
}.

Inductive source : Type :=
| FromPath (file : string)
| FromUpload (uploaded_file : UploadedFile).

Definition DATA_PATH : string := "data/Global_Superstore.csv".

Definition EXPECTED_COLS : list string :=
  [ "Row ID"; "Order ID"; "Order Date"; "Ship Date"; "Ship Mode";
    "Customer ID"; "Customer Name"; "Segment"; "Country"; "City"; "State";
    "Postal Code"; "Region"; "Product ID"; "Category"; "Sub-Category";
    "Product Name"; "Sales"; "Quantity"; "Discount"; "Profit" ].

(** ** Row-level reading of the normalizer and of the filter *)

(** A row that [dropna(subset=["Order Date", "Sales", "Profit"])] keeps. *)
Definition mandatory_present (r : row) : bool :=
  notna (field "Order Date" r)
  && (notna (field "Sales" r) && (notna (field "Profit" r) && true)).

(** The row with its derived [Order Date (Date)] cell. *)
Definition with_order_day (r : row) : row :=
  set_field "Order Date (Date)" (dt_date (field "Order Date" r)) r.

Definition is_datetime (c : cell) : bool :=
  match c with NA | Timestamp _ => true | _ => false end.

Definition is_numeric (c : cell) : bool :=
  match c with NA | Num _ => true | _ => false end.

(** Every cell of the column [label], when the frame has it, passes [p]. *)
Definition column_all (p : cell -> bool) (label : string) (df : DataFrame) : Prop :=
  forall s, lookup label (data df) = Some s -> Forall (fun c => p c = true) s.

(** What [preprocess] establishes: typed date and number columns, no null
    in the three mandatory ones, and the derived day column. *)
Record normalized (df : DataFrame) : Prop := mkNormalized {
  norm_aligned : aligned df = true;
  norm_order_date :
    exists s, lookup "Order Date" (data df) = Some s
              /\ lookup "Order Date (Date)" (data df) = Some (map dt_date s);
  norm_has_ship_date : has_column "Ship Date" df = true;
  norm_has_sales : has_column "Sales" df = true;
  norm_has_profit : has_column "Profit" df = true;
  norm_dates :
    forall l, In l ["Order Date"; "Ship Date"] -> column_all is_datetime l df;
  norm_numbers :
    forall l, In l ["Sales"; "Profit"; "Discount"; "Quantity"] ->
              column_all is_numeric l df;
  norm_mandatory :
    forall l, In l ["Order Date"; "Sales"; "Profit"] -> column_all notna l df
}.

(** The column [label] is present and every cell of it passes [p]. *)
Definition column_is (p : cell -> bool) (label : string) (df : DataFrame) : Prop :=
  exists s, lookup label (data df) = Some s /\ Forall (fun c => p c = true) s.

(** The columns the script reads after normalization, with the types it
    relies on. *)
Definition typed_table (df : DataFrame) : Prop :=
  column_is is_timestamp "Order Date" df
  /\ column_is is_date "Order Date (Date)" df
  /\ (exists s, lookup "Order Date" (data df) = Some s
                /\ lookup "Order Date (Date)" (data df) = Some (map dt_date s))
  /\ has_column "Ship Date" df = true
  /\ column_all is_datetime "Ship Date" df
  /\ column_is is_number "Sales" df
  /\ column_is is_number "Profit" df
  /\ column_all is_numeric "Discount" df
  /\ column_all is_numeric "Quantity" df.

(** A row passes a dimension when the selection is empty or holds the
    row's value for the column. *)
Definition passes (col : string) (selection : list cell) (r : row) : bool :=
  if truthy selection then isin selection (field col r) else true.

Definition passes_all (region_sel category_sel subcat_sel : list cell) (r : row)
  : bool :=
  passes "Region" region_sel r
  && passes "Category" category_sel r
  && passes "Sub-Category" subcat_sel r.

(** A row passes the default selection of a dimension, the list of all
    its options, when there is no option or the row's value is not null. *)
Definition passes_default (col : string) (opts : list cell) (r : row) : bool :=
  negb (truthy opts) || notna (field col r).

(** The filter as the specification words it: a dimension constrains the
    mask when its selection is non-empty and its column is present. *)
Definition constrain (col : string) (selection : list cell) (df : DataFrame)
  (mask : list bool) : list bool :=
  if truthy selection then
    match lookup col (data df) with
    | Some s => zip_with andb mask (map (isin selection) s)
    | None => mask
    end
  else mask.

Definition spec_filter (df : DataFrame)
  (region_sel category_sel subcat_sel : list cell) : DataFrame :=
  select_rows
    (constrain "Sub-Category" subcat_sel df
       (constrain "Category" category_sel df
          (constrain "Region" region_sel df
             (repeat true (length (index df)))))) df.

(** The row mask of [spec_filter]. *)
Definition filter_mask (df : DataFrame)
  (region_sel category_sel subcat_sel : list cell) : list bool :=
  constrain "Sub-Category" subcat_sel df
    (constrain "Category" category_sel df
       (constrain "Region" region_sel df
          (repeat true (length (index df))))).

(** A dimension with a non-empty selection and no column to test. *)
Definition unfilterable (df : DataFrame) (dim : string * list cell) : bool :=
  truthy (snd dim) && negb (has_column (fst dim) df).

Definition first_unfilterable (df : DataFrame)
  (region_sel category_sel subcat_sel : list cell) : option string :=
  option_map fst
    (find (unfilterable df)
       [("Region", region_sel); ("Category", category_sel);
        ("Sub-Category", subcat_sel)]).

(** ** A reference interpretation of the library variables

    Dates written [NN/NN/YYYY] read strictly in the requested order,
    numbers written as decimal digits, and sample tables.  The examples
    that close this file run the pipeline on them. *)

Module Sample.

Definition digit (c : ascii) : option Z :=
  let n := nat_of_ascii c in
  if ((48 <=? n) && (n <=? 57))%nat then Some (Z.of_nat (n - 48)) else None.

Fixpoint digits (s : string) (acc : Z) : option Z :=
  match s with
  | EmptyString => Some acc
  | String c rest =>
      match digit c with
      | Some d => digits rest (10 * acc + d)
      | None => None
      end
  end.

Definition number (s : string) : option Z :=
  match s with
  | EmptyString => None
  | _ => digits s 0
  end.

Definition is_leap (y : Z) : bool :=
  ((y mod 4 =? 0) && negb (y mod 100 =? 0) || (y mod 400 =? 0))%Z.

Definition days_in_month (y m : Z) : Z :=
  if (m =? 2)%Z then (if is_leap y then 29 else 28)
  else if ((m =? 4) || (m =? 6) || (m =? 9) || (m =? 11))%Z then 30
  else 31.

Definition valid_date (y m d : Z) : bool :=
  ((1 <=? m) && (m <=? 12) && (1 <=? d) && (d <=? days_in_month y m))%Z.

(** Days from 1970-01-01 to the given civil date. *)
Definition days_from_civil (y m d : Z) : Z :=
  let y' := if (m <=? 2)%Z then (y - 1)%Z else y in
  let era := (y' / 400)%Z in
  let yoe := (y' - era * 400)%Z in
  let mp := if (m <=? 2)%Z then (m + 9)%Z else (m - 3)%Z in
  let doy := ((153 * mp + 2) / 5 + d - 1)%Z in
  let doe := (yoe * 365 + yoe / 4 - yoe / 100 + doy)%Z in
  (era * 146097 + doe - 719468)%Z.

Definition parse_slashed (dayfirst : bool) (s : string) : option Z :=
  match s with
  | String a1 (String a2 (String "/" (String b1 (String b2 (String "/" yyyy))))) =>
      match number (String a1 (String a2 "")),
            number (String b1 (String b2 "")),
            number yyyy with
      | Some a, Some b, Some y =>
          let m := if dayfirst then b else a in
          let d := if dayfirst then a else b in
          if valid_date y m d
          then Some (days_from_civil y m d * ns_per_day)%Z
          else None
      | _, _, _ => None
      end
  | _ => None
  end.

Definition to_datetime_cell (dayfirst : bool) (_ : series) (c : cell) : option Z :=
  match c with
  | Timestamp ns => Some ns
  | Str s => parse_slashed dayfirst s
  | _ => None
  end.

Definition to_numeric_cell (_ : series) (c : cell) : option Q :=
  match c with
  | Num x => Some x
  | Str s => option_map inject_Z (number s)
  | _ => None
  end.

(** Three orders; the second has no readable sales figure, the third no
    ship date and no quantity. *)
Definition orders : DataFrame :=
  {| index := [0; 1; 2]%Z;
     data :=
       [ ("Order Date", [Str "03/04/2016"; Str "05/04/2016"; Str "12/31/2016"]);
         ("Ship Date", [Str "07/04/2016"; Str "09/04/2016"; NA]);
         ("Region", [Str "East"; Str "West"; Str "East"]);
         ("Category", [Str "Furniture"; Str "Technology"; Str "Furniture"]);
         ("Sub-Category", [Str "Chairs"; Str "Phones"; Str "Tables"]);
         ("Sales", [Str "100"; Str "bad"; Str "250"]);
         ("Quantity", [Str "2"; Str "1"; NA]);
         ("Profit", [Str "10"; Str "5"; Str "40"]) ] |}.

(** The same orders without the [Sales] column. *)
Definition orders_without_sales : DataFrame :=
  {| index := index orders;
     data := filter (fun lc => negb (fst lc =? "Sales")%string) (data orders) |}.

(** The same orders without the [Region] column. *)
Definition orders_without_region : DataFrame :=
  {| index := index orders;
     data := filter (fun lc => negb (fst lc =? "Region")%string) (data orders) |}.

(** A decoded file whose header carries blanks and lacks most of the
    expected columns. *)
Definition decoded : DataFrame :=
  {| index := [0; 1]%Z;
     data := [ (" Order Date", [Str "03/04/2016"; Str "05/04/2016"]);
               ("Sales ", [Str "100"; Str "20"]) ] |}.

Definition upload_csv : UploadedFile :=
  {| name := "Orders.CSV"; content := [Byte.x61; Byte.x2c; Byte.x62; Byte.x0a; Byte.xff] |}.

(** A file system with no file, and one where every path leads to
    [decoded], whatever the reader. *)
Definition no_file (_ : string) : bool := false.

Definition any_file (_ : string) : bool := true.

Definition excel_reader (_ : source) : exn + DataFrame := inr decoded.

Definition csv_reader (_ : source) (_ : list (string * string))
  : exn + DataFrame := inr decoded.

(** Day-first dates, most of which have no month-first reading. *)
Definition day_first_dates : series :=
  [Str "13/04/2016"; Str "25/12/2016"; Str "03/04/2016"].

(** One month-first date among unreadable cells. *)
Definition mostly_unreadable : series :=
  [Str "12/31/2016"; Str "soon"; Str "n/a"].

(** Half of the cells have no month-first reading, all have a day-first
    one. *)
Definition half_day_first : series :=
  [Str "13/04/2016"; Str "03/04/2016"].

(** The four mandatory columns, a region column, and no row. *)
Definition no_orders : DataFrame :=
  {| index := [];
     data := [ ("Order Date", []); ("Ship Date", []); ("Region", []);
               ("Sales", []); ("Profit", []) ] |}.

(** A reference [sorted] for the values of a text column: strings in
    their order; any other list of two or more values is refused. *)
Fixpoint insert (s : string) (l : list string) : list string :=
  match l with
  | [] => [s]
  | t :: rest => if (s <=? t)%string then s :: l else t :: insert s rest
  end.

Fixpoint strings_of (l : list cell) : option (list string) :=
  match l with
  | [] => Some []
  | Str s :: rest => option_map (cons s) (strings_of rest)
  | _ :: _ => None
  end.

Definition sorted (l : list cell) : exn + list cell :=
  match strings_of l with
  | Some ss => inr (map Str (fold_right insert [] ss))
  | None =>
      match l with
      | [_] => inr l
      | _ => inl (TypeError "<")
      end
  end.

(** The orders once normalized by hand, with a null region in the last
    row. *)
Definition normalized_orders : DataFrame :=
  {| index := [0; 2; 5]%Z;
     data :=
       [ ("Order Date",
          [Timestamp 1457049600000000000; Timestamp 1483142400000000000;
           Timestamp 1483228800000000000]);
         ("Ship Date", [Timestamp 1467590400000000000; NA; NA]);
         ("Region", [Str "West"; Str "East"; NA]);
         ("Category", [Str "Furniture"; Str "Technology"; Str "Furniture"]);
         ("Sales", [Num 100; Num 250; Num 7]);
         ("Profit", [Num 10; Num 40; Num 1]);
         ("Order Date (Date)", [Date 16864; Date 17166; Date 17167]) ] |}.

End Sample.

(** ** The pipeline of [app.py] *)

Section Pipeline.

(** [pd.to_datetime(series, errors="coerce", dayfirst=d)] yields a
    datetime64 series of the length of its argument: each cell becomes a
    timestamp or [NaT].  What a cell becomes may depend on the ordering
    flag and on the whole column (the inferred format). *)
Variable to_datetime_cell : bool -> series -> cell -> option Z.

(** [pd.to_numeric(series, errors="coerce")]: each cell becomes a number
    or [NaN]. *)
Variable to_numeric_cell : series -> cell -> option Q.

(** [Path.exists()] *)
Variable path_exists : string -> bool.

(** The parsers behind [pd.read_excel(source, engine="openpyxl")] and
    behind [pd.read_csv(source, **kwargs)] once its keywords are bound. *)
Variable excel_reader : source -> exn + DataFrame.
Variable csv_reader : source -> list (string * string) -> exn + DataFrame.

Definition to_datetime (dayfirst : bool) (s : series) : series :=
  map (fun c => of_datetime (to_datetime_cell dayfirst s c)) s.

Definition to_numeric (s : series) : series :=
  map (fun c => of_numeric (to_numeric_cell s c)) s.

Definition read_csv (src : source) (kwargs : list (string * string))
  : exn + DataFrame :=
  match bind_keywords read_csv_parameters kwargs with
  | inl e => inl e
  | inr _ => csv_reader src kwargs
  end.

(** The first block of [load_data]: choosing and running the reader. *)
Definition read_source (file : option string) (uploaded_file : option UploadedFile)
  : exn + DataFrame :=
  match uploaded_file with
  | Some up =>
      let name := PyStr.lower (name up) in
      if PyStr.endswith name ".xlsx" || PyStr.endswith name ".xls"
      then excel_reader (FromUpload up)
      else read_csv (FromUpload up) [("encoding", "utf-8"); ("errors", "replace")]
  | None =>
      match file with
      | None => inl (AttributeError "exists")
      | Some path =>
          if negb (path_exists path) then inl (FileNotFoundError path)
          else if existsb (PyStr.endswith (PyStr.lower path)) [".xlsx"; ".xls"]
          then excel_reader (FromPath path)
          else read_csv (FromPath path) [("encoding", "latin-1")]
      end
  end.

Definition missing_columns (df : DataFrame) : list string :=
  filter (fun c => negb (has_column c df)) EXPECTED_COLS.

Definition load_data (file : option string) (uploaded_file : option UploadedFile)
  : M DataFrame :=
  df <- lift (read_source file uploaded_file) ;;
  let df := strip_columns df in
  let missing := missing_columns df in
  _ <- (if truthy missing then emit (st_warning_missing missing) else ret tt) ;;
  ret df.

(** [smart_parse_datetime], with the [dayfirst] arguments of the calls it
    makes to [pd.to_datetime], in order. *)
Definition smart_parse_datetime_calls (s : series) : list bool * series :=
  let s1 := to_datetime false s in
  if gt (mean (map isna s1)) (1 # 2)%Q
  then ([false; true], to_datetime true s)
  else ([false], s1).

Definition smart_parse_datetime (s : series) : series :=
  snd (smart_parse_datetime_calls s).

Definition parse_date_column (col : string) (df : DataFrame) : M DataFrame :=
  if has_column col df then
    s <- get_column col df ;;
    ret (set_column col (smart_parse_datetime s) df)
  else
    _ <- emit (st_error_missing col) ;;
    raise StopException.

Definition coerce_numeric_column (col : string) (df : DataFrame) : M DataFrame :=
  if has_column col df then
    s <- get_column col df ;;
    ret (set_column col (to_numeric s) df)
  else ret df.

Definition preprocess (df : DataFrame) : M DataFrame :=
  df <- for_each ["Order Date"; "Ship Date"] parse_date_column df ;;
  df <- for_each ["Sales"; "Profit"; "Discount"; "Quantity"]
          coerce_numeric_column df ;;
  df <- dropna ["Order Date"; "Sales"; "Profit"] df ;;
  order_date <- get_column "Order Date" df ;;
  ret (set_column "Order Date (Date)" (map dt_date order_date) df).

Definition filter_dimension (col : string) (selection : list cell)
  (df : DataFrame) (mask : list bool) : M (list bool) :=
  if truthy selection then
    s <- get_column col df ;;
    ret (zip_with andb mask (map (isin selection) s))
  else ret mask.

Definition apply_filters (df : DataFrame)
  (region_sel category_sel subcat_sel : list cell) : M DataFrame :=
  let mask := repeat true (length (index df)) in
  mask <- filter_dimension "Region" region_sel df mask ;;
  mask <- filter_dimension "Category" category_sel df mask ;;
  mask <- filter_dimension "Sub-Category" subcat_sel df mask ;;
  ret (select_rows mask df).

(** ** The script around the helpers *)

(** Python's [sorted] on the values of a column; it raises when two
    values cannot be compared. *)
Variable sorted : list cell -> exn + list cell.

(** The options of a sidebar filter:
    [sorted(df[col].dropna().unique()) if col in df.columns else []]. *)
Definition options (col : string) (df : DataFrame) : M (list cell) :=
  if has_column col df then
    s <- get_column col df ;;
    lift (sorted (unique (filter notna s)))
  else ret [].



(** ** The steps of [preprocess], one by one *)

(** The two loops of [preprocess]: the table as it is before [dropna]. *)
Definition coerce (df : DataFrame) : M DataFrame :=
  df <- for_each ["Order Date"; "Ship Date"] parse_date_column df ;;
  for_each ["Sales"; "Profit"; "Discount"; "Quantity"] coerce_numeric_column df.

(** The same loops on a frame that has both date columns, written without
    the monad. *)
Definition update_column (f : series -> series) (col : string) (df : DataFrame)
  : DataFrame :=
  match lookup col (data df) with
  | Some s => set_column col (f s) df
  | None => df
  end.

Definition coerced (df : DataFrame) : DataFrame :=
  fold_left (fun df col => update_column to_numeric col df)
    ["Sales"; "Profit"; "Discount"; "Quantity"]
    (fold_left (fun df col => update_column smart_parse_datetime col df)
       ["Order Date"; "Ship Date"] df).

(** What the two loops do to the column of a given label. *)
Definition coercion (label : string) : series -> series :=
  if existsb (fun l => l =? label)%string ["Order Date"; "Ship Date"]
  then smart_parse_datetime
  else if existsb (fun l => l =? label)%string
            ["Sales"; "Profit"; "Discount"; "Quantity"]
  then to_numeric
  else fun s => s.

(** [dropna] and the derived column, on a frame that has the columns they
    read. *)
Definition drop_incomplete (df : DataFrame) : DataFrame :=
  select_rows
    (notna_all (lookup_all ["Order Date"; "Sales"; "Profit"] (data df))
       (length (index df))) df.

Definition add_order_day (df : DataFrame) : DataFrame :=
  match lookup "Order Date" (data df) with
  | Some s => set_column "Order Date (Date)" (map dt_date s) df
  | None => df
  end.

(** ** Lists, masks and the monad *)

Lemma compress_all_true (A : Type) (l : list A) (n : nat) :
  length l <= n -> compress (repeat true n) l = l.
Proof.
  revert n; induction l as [|x l IH]; intros [|n] Hn; simpl in *;
    try reflexivity; try lia.
  f_equal; apply IH; lia.
Qed.

Lemma compress_map_filter (A : Type) (f : A -> bool) (l : list A) :
  compress (map f l) l = filter f l.
Proof.
  induction l as [|x l IH]; simpl; [reflexivity|].
  rewrite IH; reflexivity.
Qed.

Lemma compress_same_length (A B : Type) (mask : list bool) (l : list A) (l' : list B) :
  length l = length l' ->
  length (compress mask l) = length (compress mask l').
Proof.
  revert l l'; induction mask as [|b mask IH]; intros [|x l] [|y l'] H;
    simpl in *; try reflexivity; try discriminate.
  injection H as H; destruct b; simpl; auto.
Qed.

Lemma zip_with_map (A B C D : Type) (f : B -> C -> D) (g : A -> B) (h : A -> C)
  (l : list A) :
  zip_with f (map g l) (map h l) = map (fun x => f (g x) (h x)) l.
Proof.
  induction l as [|x l IH]; simpl; [reflexivity|]; now rewrite IH.
Qed.

Lemma repeat_as_map (A B : Type) (b : B) (l : list A) :
  repeat b (length l) = map (fun _ => b) l.
Proof.
  induction l as [|x l IH]; simpl; [reflexivity|]; now rewrite IH.
Qed.

Lemma bind_ret (A B : Type) (a : A) (k : A -> M B) : bind (ret a) k = k a.
Proof.
  unfold bind, ret; destruct (k a); reflexivity.
Qed.

Lemma bind_assoc (A B C : Type) (m : M A) (k : A -> M B) (h : B -> M C) :
  bind (bind m k) h = bind m (fun a => bind (k a) h).
Proof.
  destruct m as [log [e|a]]; simpl; [reflexivity|].
  destruct (k a) as [log' [e|b]]; simpl; [reflexivity|].
  destruct (h b); now rewrite app_assoc.
Qed.

(** ** Labels, columns and rows *)

Lemma has_column_lookup (l : string) (df : DataFrame) :
  has_column l df = match lookup l (data df) with Some _ => true | None => false end.
Proof.
  unfold has_column, columns; destruct df as [idx d]; simpl.
  induction d as [|[l' c] d IH]; simpl; [reflexivity|].
  rewrite String.eqb_sym; destruct (l' =? l)%string; simpl; auto.
Qed.

Lemma lookup_assign_same (V : Type) (l : string) (v : V) d :
  lookup l (assign l v d) = Some v.
Proof.
  induction d as [|[l' w] d IH]; simpl.
  - now rewrite String.eqb_refl.
  - destruct (l' =? l)%string eqn:E; simpl; rewrite E; auto.
Qed.

Lemma lookup_assign_other (V : Type) (l l' : string) (v : V) d :
  l <> l' -> lookup l' (assign l v d) = lookup l' d.
Proof.
  intros Hne; induction d as [|[k w] d IH]; simpl.
  - destruct (String.eqb_spec l l'); [contradiction|reflexivity].
  - destruct (String.eqb_spec k l) as [->|Hk]; simpl.
    + destruct (String.eqb_spec l l'); [contradiction|reflexivity].
    + destruct (k =? l')%string; auto.
Qed.

Lemma assign_unchanged (V : Type) (l : string) (v : V) d :
  lookup l d = Some v -> assign l v d = d.
Proof.
  induction d as [|[k w] d IH]; simpl; [discriminate|].
  destruct (k =? l)%string.
  - now intros [= ->].
  - intros H; now rewrite IH.
Qed.

Lemma lookup_map_values (V W : Type) (f : V -> W) (l : string) d :
  lookup l (map_values f d) = option_map f (lookup l d).
Proof.
  induction d as [|[k w] d IH]; simpl; [reflexivity|].
  destruct (k =? l)%string; auto.
Qed.

Lemma assign_map_values (V W : Type) (f : V -> W) (l : string) (v : V) d :
  map_values f (assign l v d) = assign l (f v) (map_values f d).
Proof.
  unfold map_values; induction d as [|[k w] d IH]; simpl; [reflexivity|].
  destruct (k =? l)%string; simpl; [reflexivity|now rewrite IH].
Qed.

Lemma columns_assign_present (l : string) (s : series) d :
  lookup l d <> None -> map fst (assign l s d) = map fst d.
Proof.
  induction d as [|[k w] d IH]; simpl; [congruence|].
  destruct (k =? l)%string; simpl; [reflexivity|].
  intros H; now rewrite IH.
Qed.

Lemma aligned_columns (df : DataFrame) :
  aligned df = true <->
  Forall (fun lc => length (snd lc) = length (index df)) (data df).
Proof.
  unfold aligned; rewrite forallb_forall, Forall_forall.
  split; intros H x Hx; specialize (H x Hx); now apply Nat.eqb_eq.
Qed.

Lemma select_all_rows (df : DataFrame) :
  aligned df = true -> select_rows (repeat true (length (index df))) df = df.
Proof.
  intros Ha; apply aligned_columns in Ha.
  destruct df as [idx d]; unfold select_rows; simpl in *.
  rewrite compress_all_true by lia; f_equal.
  unfold map_values; induction d as [|[l c] d IH]; simpl; [reflexivity|].
  inversion Ha as [|? ? Hc Hd]; subst; simpl in Hc.
  rewrite compress_all_true by lia.
  now rewrite IH.
Qed.

#[warning="-notation-for-abbreviation"]
Local Notation aligned_with idx d :=
  (Forall (fun lc : string * series => length (snd lc) = length idx) d).

Lemma map_values_compose (U V W : Type) (f : V -> W) (g : U -> V) d :
  map_values f (map_values g d) = map_values (fun v => f (g v)) d.
Proof.
  unfold map_values; rewrite map_map; reflexivity.
Qed.

Lemma map_values_ext_in (V W : Type) (f g : V -> W) d :
  (forall lv, In lv d -> f (snd lv) = g (snd lv)) ->
  map_values f d = map_values g d.
Proof.
  intros H; apply map_ext_in; intros lv Hin; f_equal; auto.
Qed.

Lemma lookup_Forall (V : Type) (P : V -> Prop) (l : string) d v :
  Forall (fun lv => P (snd lv)) d -> lookup l d = Some v -> P v.
Proof.
  induction 1 as [|[k w] d Hw Hd IH]; simpl; [discriminate|].
  destruct (k =? l)%string; [now intros [= <-]|assumption].
Qed.

Lemma Forall_assign (V : Type) (P : V -> Prop) (l : string) (v : V) d :
  Forall (fun lv => P (snd lv)) d -> P v ->
  Forall (fun lv => P (snd lv)) (assign l v d).
Proof.
  intros Hd Hv; induction Hd as [|[k w] d Hw Hd IH]; simpl.
  - constructor; auto.
  - destruct (k =? l)%string; constructor; auto.
Qed.

Lemma aligned_nonempty (i : Z) idx d :
  aligned_with (i :: idx) d ->
  aligned_with idx (map_values (@tl cell) d)
  /\ forall l c, In (l, c) d -> exists x c', c = x :: c'.
Proof.
  intros Ha; split.
  - unfold map_values; rewrite Forall_map.
    eapply Forall_impl; [|exact Ha]; intros [l [|x c]]; simpl; lia.
  - rewrite Forall_forall in Ha; intros l [|x c] Hin;
      specialize (Ha _ Hin); simpl in *; [lia|eauto].
Qed.

Lemma rows_of_length idx : forall d, length (rows_of idx d) = length idx.
Proof.
  induction idx as [|i idx IH]; intros d; simpl; auto.
Qed.

Lemma rows_of_labels idx : forall d, map fst (rows_of idx d) = idx.
Proof.
  induction idx as [|i idx IH]; intros d; simpl; [reflexivity|].
  now rewrite IH.
Qed.

(** Boolean indexing selects whole rows. *)
Lemma rows_of_compress (mask : list bool) : forall idx d,
  aligned_with idx d ->
  rows_of (compress mask idx) (map_values (compress mask) d)
  = compress mask (rows_of idx d).
Proof.
  induction mask as [|b mask IH]; intros [|i idx] d Ha; try reflexivity.
  destruct (aligned_nonempty Ha) as [Htl Hne].
  assert (Hhd : map_values (hd NA) (map_values (compress (true :: mask)) d)
                = map_values (hd NA) d).
  { rewrite map_values_compose; apply map_values_ext_in.
    intros [l c] Hin; destruct (Hne l c Hin) as (x & c' & ->); reflexivity. }
  assert (Htrue : map_values (@tl cell) (map_values (compress (true :: mask)) d)
                  = map_values (compress mask) (map_values (@tl cell) d)).
  { rewrite !map_values_compose; apply map_values_ext_in.
    intros [l c] Hin; destruct (Hne l c Hin) as (x & c' & ->); reflexivity. }
  assert (Hfalse : map_values (compress (false :: mask)) d
                   = map_values (compress mask) (map_values (@tl cell) d)).
  { rewrite map_values_compose; apply map_values_ext_in.
    intros [l c] Hin; destruct (Hne l c Hin) as (x & c' & ->); reflexivity. }
  destruct b; simpl.
  - apply (f_equal2 (@cons row)).
    + apply (f_equal (pair i)); exact Hhd.
    + rewrite <- (IH idx _ Htl).
      apply (f_equal (rows_of (compress mask idx))); exact Htrue.
  - rewrite <- (IH idx _ Htl).
    apply (f_equal (rows_of (compress mask idx))); exact Hfalse.
Qed.

(** A column is the list of its cells along the rows. *)
Lemma column_along_rows (l : string) idx : forall d s,
  aligned_with idx d -> lookup l d = Some s ->
  s = map (field l) (rows_of idx d).
Proof.
  induction idx as [|i idx IH]; intros d s Ha Hl.
  - pose proof (lookup_Forall (fun c => length c = 0) l Ha Hl) as H0.
    destruct s; [reflexivity|discriminate].
  - pose proof (lookup_Forall (fun c => length c = S (length idx)) l Ha Hl) as HS.
    destruct s as [|x s]; [discriminate|].
    destruct (aligned_nonempty Ha) as [Htl _]; simpl; f_equal.
    + unfold field; simpl; now rewrite lookup_map_values, Hl.
    + apply IH; [assumption|]; now rewrite lookup_map_values, Hl.
Qed.

(** Assigning a column assigns one cell in every row. *)
Lemma rows_of_assign (l : string) idx : forall d s,
  length s = length idx ->
  rows_of idx (assign l s d)
  = zip_with (fun r c => set_field l c r) (rows_of idx d) s.
Proof.
  induction idx as [|i idx IH]; intros d [|x s] Hs; try discriminate;
    [reflexivity|]; simpl.
  rewrite !assign_map_values; simpl.
  apply (f_equal2 (@cons row)); [reflexivity|].
  apply IH; simpl in Hs; lia.
Qed.

Lemma zip_with_map_r (A B C : Type) (f : A -> B -> C) (h : A -> B) (l : list A) :
  zip_with f l (map h l) = map (fun x => f x (h x)) l.
Proof.
  induction l as [|x l IH]; simpl; [reflexivity|]; now rewrite IH.
Qed.

Lemma field_set_field_other (l l' : string) (c : cell) (r : row) :
  (l =? l')%string = false -> field l' (set_field l c r) = field l' r.
Proof.
  intros H; unfold field, set_field; simpl.
  rewrite lookup_assign_other; [reflexivity|].
  intros ->; now rewrite String.eqb_refl in H.
Qed.

Lemma aligned_set_column (l : string) (s : series) (df : DataFrame) :
  aligned df = true -> length s = length (index df) ->
  aligned (set_column l s df) = true.
Proof.
  rewrite !aligned_columns; intros Ha Hs; simpl.
  now apply (Forall_assign (fun c => length c = length (index df))).
Qed.

Lemma aligned_select_rows (mask : list bool) (df : DataFrame) :
  aligned df = true -> aligned (select_rows mask df) = true.
Proof.
  rewrite !aligned_columns; intros Ha; simpl.
  unfold map_values; rewrite Forall_map.
  eapply Forall_impl; [|exact Ha]; intros [l c] Hc; simpl in *.
  now apply compress_same_length.
Qed.

Lemma rows_select_rows (mask : list bool) (df : DataFrame) :
  aligned df = true -> rows (select_rows mask df) = compress mask (rows df).
Proof.
  intros Ha; apply aligned_columns in Ha; now apply rows_of_compress.
Qed.

(** ** Column updates *)

Lemma index_update_column f l df : index (update_column f l df) = index df.
Proof.
  unfold update_column; destruct (lookup l (data df)); reflexivity.
Qed.

Lemma columns_update_column f l df :
  columns (update_column f l df) = columns df.
Proof.
  unfold update_column, columns.
  destruct (lookup l (data df)) eqn:E; [|reflexivity]; simpl.
  apply columns_assign_present; congruence.
Qed.

Lemma has_column_update_column f l l' df :
  has_column l' (update_column f l df) = has_column l' df.
Proof.
  unfold has_column; now rewrite columns_update_column.
Qed.

Lemma lookup_update_column_same f l df :
  lookup l (data (update_column f l df)) = option_map f (lookup l (data df)).
Proof.
  unfold update_column; destruct (lookup l (data df)) eqn:E; simpl.
  - apply lookup_assign_same.
  - assumption.
Qed.

Lemma lookup_update_column_other f l l' df :
  (l =? l')%string = false ->
  lookup l' (data (update_column f l df)) = lookup l' (data df).
Proof.
  intros H; unfold update_column; destruct (lookup l (data df)); simpl;
    [|reflexivity].
  apply lookup_assign_other; intros ->; now rewrite String.eqb_refl in H.
Qed.

Lemma lookup_update_column f l l' df :
  lookup l' (data (update_column f l df))
  = if (l =? l')%string then option_map f (lookup l' (data df))
    else lookup l' (data df).
Proof.
  destruct (String.eqb_spec l l') as [<-|Hne].
  - apply lookup_update_column_same.
  - apply lookup_update_column_other; now apply String.eqb_neq.
Qed.

Lemma aligned_update_column f l df :
  (forall s, length (f s) = length s) ->
  aligned df = true -> aligned (update_column f l df) = true.
Proof.
  intros Hf Ha; unfold update_column.
  destruct (lookup l (data df)) as [s|] eqn:E; [|assumption].
  apply aligned_set_column; [assumption|]; rewrite Hf.
  apply aligned_columns in Ha.
  exact (lookup_Forall (fun c => length c = length (index df)) l Ha E).
Qed.

Lemma update_column_fixed f l df :
  (forall s, lookup l (data df) = Some s -> f s = s) ->
  update_column f l df = df.
Proof.
  intros H; unfold update_column, set_column.
  destruct (lookup l (data df)) as [s|] eqn:E; [|reflexivity].
  rewrite (H s eq_refl), (assign_unchanged _ _ E); now destruct df.
Qed.

(** ** The date heuristic *)

Lemma mean_gt_half (bs : list bool) :
  gt (mean bs) (1 # 2)%Q = (length bs <? 2 * count_true bs)%nat.
Proof.
  destruct bs as [|b bs]; [reflexivity|].
  unfold gt, mean, Qle_bool; cbn [Qnum Qden].
  set (k := count_true (b :: bs)); set (n := length (b :: bs)).
  assert (Hn : Z.pos (Pos.of_nat n) = Z.of_nat n).
  { unfold n; simpl length; rewrite <- Pos.of_nat_succ.
    rewrite Zpos_P_of_succ_nat; lia. }
  rewrite Hn.
  destruct (Z.leb_spec (Z.of_nat k * 2) (1 * Z.of_nat n));
    destruct (Nat.ltb_spec n (2 * k)); simpl; try reflexivity; lia.
Qed.

Lemma to_datetime_length (dayfirst : bool) (s : series) :
  length (to_datetime dayfirst s) = length s.
Proof.
  unfold to_datetime; apply length_map.
Qed.

Lemma to_numeric_length (s : series) : length (to_numeric s) = length s.
Proof.
  unfold to_numeric; apply length_map.
Qed.

Lemma smart_parse_datetime_unfold (s : series) :
  smart_parse_datetime_calls s =
  if (length s <? 2 * count_na (to_datetime false s))%nat
  then ([false; true], to_datetime true s)
  else ([false], to_datetime false s).
Proof.
  unfold smart_parse_datetime_calls, count_na.
  rewrite mean_gt_half, length_map, to_datetime_length; reflexivity.
Qed.

(** C1.  The heuristic first reads the column month-first.  It reads it
    again day-first, and returns that reading, exactly when more than half
    of the month-first cells are null; otherwise the month-first reading
    is what it returns, whatever the day-first reading would have been. *)
Theorem smart_parse_datetime_threshold (s : series) :
  let nulls := count_na (to_datetime false s) in
  hd_error (fst (smart_parse_datetime_calls s)) = Some false
  /\ fst (smart_parse_datetime_calls s)
     = (if (length s <? 2 * nulls)%nat then [false; true] else [false])
  /\ smart_parse_datetime s
     = to_datetime (length s <? 2 * nulls)%nat s.
Proof.
  unfold smart_parse_datetime; rewrite smart_parse_datetime_unfold.
  cbv zeta; destruct (length s <? 2 * count_na (to_datetime false s))%nat;
    simpl; auto.
Qed.

(** C10.  Once more than half of the month-first cells are null, the
    day-first reading is returned as it is: two calls are made, and the
    nulls of the day-first reading play no part. *)
Theorem day_first_reading_is_final (s : series) :
  length s < 2 * count_na (to_datetime false s) ->
  smart_parse_datetime s = to_datetime true s
  /\ fst (smart_parse_datetime_calls s) = [false; true].
Proof.
  intros H; apply Nat.ltb_lt in H.
  unfold smart_parse_datetime; rewrite smart_parse_datetime_unfold, H.
  split; reflexivity.
Qed.

(** ** The loader *)

(** C7.  With no upload, a path that does not exist makes the loader
    raise [FileNotFoundError] for that path; no table is returned and
    nothing is written to the page. *)
Theorem load_data_missing_path (path : string) :
  path_exists path = false ->
  load_data (Some path) None = ([], inl (FileNotFoundError path))
  /\ returned (load_data (Some path) None) = None.
Proof.
  intros H; unfold load_data, read_source, returned; rewrite H; simpl.
  split; reflexivity.
Qed.



(** [read_csv] reaches the decoder under the keywords it declares: the
    call made for a path does, and so would the upload call under
    [encoding_errors]. *)
Lemma read_csv_declared_keywords (src : source) :
  read_csv src [("encoding", "latin-1")]
  = csv_reader src [("encoding", "latin-1")]
  /\ read_csv src [("encoding", "utf-8"); ("encoding_errors", "replace")]
     = csv_reader src [("encoding", "utf-8"); ("encoding_errors", "replace")]
  /\ read_csv src [("encoding", "utf-8"); ("errors", "replace")]
     = inl (TypeError "errors").
Proof.
  repeat split; reflexivity.
Qed.

(** C3.  An upload whose name has no spreadsheet extension is handed to
    [read_csv] with the keyword [errors], which [read_csv] does not
    declare: the call raises [TypeError] before any byte is decoded, and
    the loader returns no table. *)
Theorem load_data_upload_text_raises (file : option string) (up : UploadedFile) :
  PyStr.endswith (PyStr.lower (name up)) ".xlsx" = false ->
  PyStr.endswith (PyStr.lower (name up)) ".xls" = false ->
  load_data file (Some up) = ([], inl (TypeError "errors")).
Proof.
  intros H1 H2; unfold load_data, read_source; rewrite H1, H2; reflexivity.
Qed.

(** ** The filter *)

Lemma filter_dimension_unfold (col : string) (sel : list cell) (df : DataFrame)
  (mask : list bool) :
  filter_dimension col sel df mask =
  if unfilterable df (col, sel) then raise (KeyError [col])
  else ret (constrain col sel df mask).
Proof.
  unfold filter_dimension, unfilterable, constrain, get_column; simpl.
  rewrite has_column_lookup.
  destruct (truthy sel); simpl; [|reflexivity].
  destruct (lookup col (data df)); reflexivity.
Qed.

(** C2, as the code has it.  The filter raises [KeyError] for the first
    dimension, in the order Region, Category, Sub-Category, whose
    selection is non-empty and whose column is absent; when there is none
    it returns, silently, the rows that pass every dimension with a
    non-empty selection.  An absent column is skipped only under an empty
    selection. *)
Theorem apply_filters_absent_column (df : DataFrame)
  (region_sel category_sel subcat_sel : list cell) :
  apply_filters df region_sel category_sel subcat_sel =
  match first_unfilterable df region_sel category_sel subcat_sel with
  | Some col => ([], inl (KeyError [col]))
  | None => ([], inr (spec_filter df region_sel category_sel subcat_sel))
  end.
Proof.
  unfold apply_filters, first_unfilterable, spec_filter.
  rewrite !filter_dimension_unfold; cbn [find option_map].
  destruct (unfilterable df ("Region", region_sel)); [reflexivity|].
  rewrite bind_ret, filter_dimension_unfold.
  destruct (unfilterable df ("Category", category_sel)); [reflexivity|].
  rewrite bind_ret, filter_dimension_unfold.
  destruct (unfilterable df ("Sub-Category", subcat_sel)); reflexivity.
Qed.

(** C5.  With three empty selections the filter returns the table it was
    given. *)
Theorem apply_filters_no_selection (df : DataFrame) :
  aligned df = true ->
  apply_filters df [] [] [] = ([], inr df).
Proof.
  intros Ha; unfold apply_filters, filter_dimension, bind, ret; simpl.
  now rewrite select_all_rows.
Qed.

(** ** The normalizer *)

Lemma parse_date_column_unfold (col : string) (df : DataFrame) :
  parse_date_column col df =
  if has_column col df then ret (update_column smart_parse_datetime col df)
  else ([st_error_missing col], inl StopException).
Proof.
  unfold parse_date_column, get_column, update_column.
  rewrite has_column_lookup; destruct (lookup col (data df)); reflexivity.
Qed.

Lemma coerce_numeric_column_unfold (col : string) (df : DataFrame) :
  coerce_numeric_column col df = ret (update_column to_numeric col df).
Proof.
  unfold coerce_numeric_column, get_column, update_column.
  rewrite has_column_lookup; destruct (lookup col (data df)); reflexivity.
Qed.

Lemma coerce_unfold (df : DataFrame) :
  coerce df =
  if has_column "Order Date" df then
    if has_column "Ship Date" df then ret (coerced df)
    else ([st_error_missing "Ship Date"], inl StopException)
  else ([st_error_missing "Order Date"], inl StopException).
Proof.
  unfold coerce, coerced; cbn [for_each fold_left].
  rewrite parse_date_column_unfold.
  destruct (has_column "Order Date" df); [|reflexivity].
  rewrite bind_ret, parse_date_column_unfold, has_column_update_column.
  destruct (has_column "Ship Date" df); [|reflexivity].
  rewrite !bind_ret.
  repeat (rewrite coerce_numeric_column_unfold, bind_ret).
  reflexivity.
Qed.

Lemma has_column_coerced (l : string) (df : DataFrame) :
  has_column l (coerced df) = has_column l df.
Proof.
  unfold coerced; cbn [fold_left]; now rewrite !has_column_update_column.
Qed.

Lemma index_coerced (df : DataFrame) : index (coerced df) = index df.
Proof.
  unfold coerced; cbn [fold_left]; now rewrite !index_update_column.
Qed.

Lemma columns_coerced (df : DataFrame) : columns (coerced df) = columns df.
Proof.
  unfold coerced; cbn [fold_left]; now rewrite !columns_update_column.
Qed.

(** The coerced table is the input with its date and number columns
    re-read; every other column is untouched. *)
Lemma lookup_coerced (l : string) (df : DataFrame) :
  lookup l (data (coerced df)) = option_map (coercion l) (lookup l (data df)).
Proof.
  unfold coerced, coercion; cbn [fold_left existsb].
  rewrite !lookup_update_column.
  destruct (String.eqb_spec "Order Date" l) as [<-|?]; [reflexivity|].
  destruct (String.eqb_spec "Ship Date" l) as [<-|?]; [reflexivity|].
  destruct (String.eqb_spec "Sales" l) as [<-|?]; [reflexivity|].
  destruct (String.eqb_spec "Profit" l) as [<-|?]; [reflexivity|].
  destruct (String.eqb_spec "Discount" l) as [<-|?]; [reflexivity|].
  destruct (String.eqb_spec "Quantity" l) as [<-|?]; [reflexivity|].
  cbn; destruct (lookup l (data df)); reflexivity.
Qed.

Lemma smart_parse_datetime_length (s : series) :
  length (smart_parse_datetime s) = length s.
Proof.
  unfold smart_parse_datetime; rewrite smart_parse_datetime_unfold.
  destruct (_ <? _)%nat; simpl; apply to_datetime_length.
Qed.

Lemma aligned_coerced (df : DataFrame) :
  aligned df = true -> aligned (coerced df) = true.
Proof.
  intros Ha; unfold coerced; cbn [fold_left].
  repeat (apply aligned_update_column;
          [first [exact to_numeric_length | exact smart_parse_datetime_length]|]).
  assumption.
Qed.

Lemma has_column_select_rows (l : string) (mask : list bool) (df : DataFrame) :
  has_column l (select_rows mask df) = has_column l df.
Proof.
  rewrite !has_column_lookup; simpl; rewrite lookup_map_values.
  destruct (lookup l (data df)); reflexivity.
Qed.

Lemma preprocess_after_coerce (df : DataFrame) :
  preprocess df =
  (df <- coerce df ;;
   df <- dropna ["Order Date"; "Sales"; "Profit"] df ;;
   order_date <- get_column "Order Date" df ;;
   ret (set_column "Order Date (Date)" (map dt_date order_date) df)).
Proof.
  unfold preprocess, coerce; now rewrite bind_assoc.
Qed.

(** [preprocess] on a frame that has both date columns. *)
Lemma preprocess_unfold (df : DataFrame) :
  has_column "Order Date" df = true ->
  has_column "Ship Date" df = true ->
  preprocess df =
  match filter (fun l => negb (has_column l df)) ["Sales"; "Profit"] with
  | [] => ret (add_order_day (drop_incomplete (coerced df)))
  | absent => raise (KeyError absent)
  end.
Proof.
  intros Hod Hsd; rewrite preprocess_after_coerce.
  rewrite coerce_unfold, Hod, Hsd, bind_ret; unfold dropna.
  cbn [filter]; rewrite !has_column_coerced, Hod; cbn [negb].
  destruct (has_column "Sales" df), (has_column "Profit" df); cbn [negb];
    try reflexivity.
  rewrite bind_ret; fold (drop_incomplete (coerced df)).
  assert (H : has_column "Order Date" (drop_incomplete (coerced df)) = true)
    by (unfold drop_incomplete; now rewrite has_column_select_rows, has_column_coerced).
  rewrite has_column_lookup in H.
  unfold get_column, add_order_day.
  destruct (lookup "Order Date" (data (drop_incomplete (coerced df))));
    [reflexivity|discriminate].
Qed.

(** The mask of [dropna] is the row predicate [mandatory_present]. *)
Lemma mandatory_mask_rows (df : DataFrame) :
  aligned df = true ->
  has_column "Order Date" df = true ->
  has_column "Sales" df = true ->
  has_column "Profit" df = true ->
  notna_all (lookup_all ["Order Date"; "Sales"; "Profit"] (data df))
    (length (index df))
  = map mandatory_present (rows df).
Proof.
  intros Ha Hod Hsa Hpr; rewrite has_column_lookup in Hod, Hsa, Hpr.
  apply aligned_columns in Ha; cbn [lookup_all].
  destruct (lookup "Order Date" (data df)) as [od|] eqn:Eod; [|discriminate].
  destruct (lookup "Sales" (data df)) as [sa|] eqn:Esa; [|discriminate].
  destruct (lookup "Profit" (data df)) as [pr|] eqn:Epr; [|discriminate].
  rewrite (@column_along_rows _ _ _ _ Ha Eod),
    (@column_along_rows _ _ _ _ Ha Esa), (@column_along_rows _ _ _ _ Ha Epr).
  fold (rows df); cbn [notna_all].
  rewrite <- (rows_of_length (index df) (data df)); fold (rows df).
  rewrite repeat_as_map, !map_map, !zip_with_map; reflexivity.
Qed.

Lemma rows_drop_incomplete (df : DataFrame) :
  aligned df = true ->
  has_column "Order Date" df = true ->
  has_column "Sales" df = true ->
  has_column "Profit" df = true ->
  rows (drop_incomplete df) = filter mandatory_present (rows df).
Proof.
  intros Ha Hod Hsa Hpr; unfold drop_incomplete.
  rewrite rows_select_rows, mandatory_mask_rows by assumption.
  apply compress_map_filter.
Qed.

Lemma rows_add_order_day (df : DataFrame) :
  aligned df = true ->
  has_column "Order Date" df = true ->
  rows (add_order_day df) = map with_order_day (rows df).
Proof.
  intros Ha Hod; rewrite has_column_lookup in Hod; unfold add_order_day.
  destruct (lookup "Order Date" (data df)) as [od|] eqn:Eod; [|discriminate].
  apply aligned_columns in Ha.
  pose proof (@lookup_Forall _ (fun c => length c = length (index df)) _ _ _ Ha Eod)
    as Hlen.
  unfold rows; simpl; rewrite rows_of_assign by now rewrite length_map.
  rewrite (@column_along_rows _ _ _ _ Ha Eod) at 1.
  rewrite map_map, zip_with_map_r; reflexivity.
Qed.

Lemma mandatory_present_with_order_day (r : row) :
  mandatory_present (with_order_day r) = mandatory_present r.
Proof.
  unfold mandatory_present, with_order_day.
  now rewrite !field_set_field_other by reflexivity.
Qed.

(** Without its [Order Date] column a table stops the script, with one
    error on the page. *)
Lemma preprocess_missing_order_date (df : DataFrame) :
  has_column "Order Date" df = false ->
  preprocess df = ([st_error_missing "Order Date"], inl StopException).
Proof.
  intros H; now rewrite preprocess_after_coerce, coerce_unfold, H.
Qed.

(** So does a table without its [Ship Date] column. *)
Lemma preprocess_missing_ship_date (df : DataFrame) :
  has_column "Order Date" df = true ->
  has_column "Ship Date" df = false ->
  preprocess df = ([st_error_missing "Ship Date"], inl StopException).
Proof.
  intros H1 H2; now rewrite preprocess_after_coerce, coerce_unfold, H1, H2.
Qed.

(** With both date columns and with [Sales] and [Profit], [preprocess]
    returns, whatever other columns are absent. *)
Lemma preprocess_returns (df : DataFrame) :
  has_column "Order Date" df = true ->
  has_column "Ship Date" df = true ->
  has_column "Sales" df = true ->
  has_column "Profit" df = true ->
  preprocess df = ([], inr (add_order_day (drop_incomplete (coerced df)))).
Proof.
  intros Hod Hsd Hsa Hpr; rewrite preprocess_unfold by assumption.
  cbn [filter]; now rewrite Hsa, Hpr.
Qed.

Lemma preprocess_returned_has (df : DataFrame) log out :
  has_column "Order Date" df = true ->
  has_column "Ship Date" df = true ->
  preprocess df = (log, inr out) ->
  has_column "Sales" df = true /\ has_column "Profit" df = true.
Proof.
  intros Hod Hsd; rewrite preprocess_unfold by assumption; cbn [filter].
  destruct (has_column "Sales" df), (has_column "Profit" df); cbn [negb];
    try discriminate; auto.
Qed.

(** C4.  On a table with both date columns, parsing and coercion keep
    the rows and the labels and re-read six columns.  The rows of the
    output are the rows of that table whose [Order Date], [Sales] and
    [Profit] are all non-null, in order, each with its derived day; every
    output row has the three non-null; nulls elsewhere remove no row.
    The output exists as soon as [Sales] and [Profit] are columns too. *)
Theorem preprocess_keeps_complete_rows (df : DataFrame) :
  wf_df df = true ->
  has_column "Order Date" df = true ->
  has_column "Ship Date" df = true ->
  coerce df = ([], inr (coerced df))
  /\ map fst (rows (coerced df)) = index df
  /\ columns (coerced df) = columns df
  /\ (forall l, lookup l (data (coerced df))
                = option_map (coercion l) (lookup l (data df)))
  /\ (forall log out, preprocess df = (log, inr out) ->
        rows out = map with_order_day (filter mandatory_present (rows (coerced df)))
        /\ Forall (fun r => mandatory_present r = true) (rows out))
  /\ (has_column "Sales" df = true -> has_column "Profit" df = true ->
        exists out, preprocess df = ([], inr out)).
Proof.
  intros Hwf Hod Hsd; apply andb_prop in Hwf as [Ha _].
  split; [now rewrite coerce_unfold, Hod, Hsd|].
  split; [unfold rows; now rewrite rows_of_labels, index_coerced|].
  split; [apply columns_coerced|].
  split; [intros l; apply lookup_coerced|].
  split.
  - intros log out Hout.
    pose proof Hout as Hhas.
    apply preprocess_returned_has in Hhas as [Hsa Hpr]; [|assumption..].
    rewrite preprocess_returns in Hout by assumption.
    injection Hout as _ <-.
    pose proof (aligned_coerced df Ha) as Hmid.
    assert (Hrows : rows (add_order_day (drop_incomplete (coerced df)))
                    = map with_order_day
                        (filter mandatory_present (rows (coerced df)))).
    { rewrite rows_add_order_day.
      - now rewrite rows_drop_incomplete by (rewrite ?has_column_coerced; assumption).
      - now apply aligned_select_rows.
      - unfold drop_incomplete; now rewrite has_column_select_rows, has_column_coerced. }
    split; [exact Hrows|].
    rewrite Hrows, Forall_map, Forall_forall; intros r Hr.
    rewrite mandatory_present_with_order_day.
    now apply filter_In in Hr.
  - intros Hsa Hpr; eexists; now apply preprocess_returns.
Qed.

(** C6, where the code departs from it.  A table with both date columns
    that lacks [Sales] or [Profit] makes [dropna] raise [KeyError] for the
    absent labels: their absence is fatal as well. *)
Theorem preprocess_needs_sales_and_profit (df : DataFrame) :
  has_column "Order Date" df = true ->
  has_column "Ship Date" df = true ->
  has_column "Sales" df && has_column "Profit" df = false ->
  preprocess df
  = ([], inl (KeyError (filter (fun l => negb (has_column l df))
                          ["Sales"; "Profit"]))).
Proof.
  intros Hod Hsd H; rewrite preprocess_unfold by assumption; cbn [filter].
  destruct (has_column "Sales" df), (has_column "Profit" df);
    try discriminate; reflexivity.
Qed.

(** ** What the normalizer establishes *)

Lemma Forall_compress (A : Type) (P : A -> Prop) (mask : list bool) (l : list A) :
  Forall P l -> Forall P (compress mask l).
Proof.
  intros H; revert mask; induction H as [|x l Hx Hl IH]; intros [|b mask];
    simpl; auto.
  destruct b; auto.
Qed.

Lemma column_all_update_same (p : cell -> bool) f l df :
  (forall s, Forall (fun c => p c = true) (f s)) ->
  column_all p l (update_column f l df).
Proof.
  intros Hf s; rewrite lookup_update_column_same.
  destruct (lookup l (data df)); simpl; [|discriminate].
  intros [= <-]; apply Hf.
Qed.

Lemma column_all_update_other (p : cell -> bool) f l l' df :
  (l =? l')%string = false ->
  column_all p l' df -> column_all p l' (update_column f l df).
Proof.
  intros Hne H s; rewrite lookup_update_column_other by assumption; apply H.
Qed.

Lemma column_all_select_rows (p : cell -> bool) l mask df :
  column_all p l df -> column_all p l (select_rows mask df).
Proof.
  intros H s; simpl; rewrite lookup_map_values.
  destruct (lookup l (data df)) as [c|] eqn:E; simpl; [|discriminate].
  intros [= <-]; apply Forall_compress; now apply H.
Qed.

Lemma lookup_add_order_day_other l df :
  ("Order Date (Date)" =? l)%string = false ->
  lookup l (data (add_order_day df)) = lookup l (data df).
Proof.
  intros Hne; unfold add_order_day.
  destruct (lookup "Order Date" (data df)); [|reflexivity]; simpl.
  apply lookup_assign_other; intros <-; discriminate.
Qed.

Lemma column_all_add_order_day (p : cell -> bool) l df :
  ("Order Date (Date)" =? l)%string = false ->
  column_all p l df -> column_all p l (add_order_day df).
Proof.
  intros Hne H s; rewrite lookup_add_order_day_other by assumption; apply H.
Qed.

Lemma has_column_add_order_day l df :
  ("Order Date (Date)" =? l)%string = false ->
  has_column l (add_order_day df) = has_column l df.
Proof.
  intros Hne; now rewrite !has_column_lookup, lookup_add_order_day_other.
Qed.

Lemma aligned_add_order_day df :
  aligned df = true -> aligned (add_order_day df) = true.
Proof.
  intros Ha; unfold add_order_day.
  destruct (lookup "Order Date" (data df)) as [s|] eqn:E; [|assumption].
  apply aligned_set_column; [assumption|]; rewrite length_map.
  apply aligned_columns in Ha.
  exact (@lookup_Forall _ (fun c => length c = length (index df)) _ _ _ Ha E).
Qed.

Lemma to_datetime_typed dayfirst s :
  Forall (fun c => is_datetime c = true) (to_datetime dayfirst s).
Proof.
  unfold to_datetime; rewrite Forall_map, Forall_forall; intros c _.
  destruct (to_datetime_cell dayfirst s c); reflexivity.
Qed.

Lemma smart_parse_datetime_typed s :
  Forall (fun c => is_datetime c = true) (smart_parse_datetime s).
Proof.
  unfold smart_parse_datetime; rewrite smart_parse_datetime_unfold.
  destruct (_ <? _)%nat; simpl; apply to_datetime_typed.
Qed.

Lemma to_numeric_typed s :
  Forall (fun c => is_numeric c = true) (to_numeric s).
Proof.
  unfold to_numeric; rewrite Forall_map, Forall_forall; intros c _.
  destruct (to_numeric_cell s c); reflexivity.
Qed.

Lemma coerced_dates df l :
  In l ["Order Date"; "Ship Date"] -> column_all is_datetime l (coerced df).
Proof.
  intros Hl; unfold coerced; cbn [fold_left].
  destruct Hl as [<-|[<-|[]]];
    repeat (apply column_all_update_other; [reflexivity|]);
    apply column_all_update_same; exact smart_parse_datetime_typed.
Qed.

Lemma coerced_numbers df l :
  In l ["Sales"; "Profit"; "Discount"; "Quantity"] ->
  column_all is_numeric l (coerced df).
Proof.
  intros Hl; unfold coerced; cbn [fold_left].
  destruct Hl as [<-|[<-|[<-|[<-|[]]]]];
    repeat (apply column_all_update_other; [reflexivity|]);
    apply column_all_update_same; exact to_numeric_typed.
Qed.

Lemma drop_incomplete_mandatory df l :
  aligned df = true ->
  has_column "Order Date" df = true ->
  has_column "Sales" df = true ->
  has_column "Profit" df = true ->
  In l ["Order Date"; "Sales"; "Profit"] ->
  column_all notna l (drop_incomplete df).
Proof.
  intros Ha Hod Hsa Hpr Hl s Hs.
  assert (Hd : aligned (drop_incomplete df) = true)
    by now apply aligned_select_rows.
  apply aligned_columns in Hd.
  rewrite (@column_along_rows _ _ _ _ Hd Hs); fold (rows (drop_incomplete df)).
  rewrite rows_drop_incomplete by assumption.
  rewrite Forall_map, Forall_forall; intros r Hr.
  apply filter_In in Hr as [_ Hr]; unfold mandatory_present in Hr.
  apply andb_prop in Hr as [H1 Hr]; apply andb_prop in Hr as [H2 Hr].
  apply andb_prop in Hr as [H3 _].
  destruct Hl as [<-|[<-|[<-|[]]]]; assumption.
Qed.

(** The output of [preprocess] is a normalized table. *)
Lemma preprocess_normalizes (df : DataFrame) log out :
  aligned df = true ->
  preprocess df = (log, inr out) ->
  normalized out.
Proof.
  intros Ha Hout.
  destruct (has_column "Order Date" df) eqn:Hod;
    [|rewrite preprocess_missing_order_date in Hout by assumption; discriminate].
  destruct (has_column "Ship Date" df) eqn:Hsd;
    [|rewrite preprocess_missing_ship_date in Hout by assumption; discriminate].
  pose proof Hout as Hhas.
  apply preprocess_returned_has in Hhas as [Hsa Hpr]; [|assumption..].
  rewrite preprocess_returns in Hout by assumption.
  injection Hout as _ <-.
  pose proof (aligned_coerced df Ha) as Hmid.
  assert (Hd : aligned (drop_incomplete (coerced df)) = true)
    by now apply aligned_select_rows.
  assert (Hhas : forall l, has_column l df = true ->
                 has_column l (drop_incomplete (coerced df)) = true).
  { intros l Hl; unfold drop_incomplete.
    now rewrite has_column_select_rows, has_column_coerced. }
  constructor.
  - now apply aligned_add_order_day.
  - pose proof (Hhas _ Hod) as H; rewrite has_column_lookup in H.
    unfold add_order_day.
    destruct (lookup "Order Date" (data (drop_incomplete (coerced df))))
      as [s|] eqn:E; [|discriminate].
    exists s; simpl; split.
    + rewrite lookup_assign_other; [assumption|discriminate].
    + apply lookup_assign_same.
  - rewrite has_column_add_order_day by reflexivity; auto.
  - rewrite has_column_add_order_day by reflexivity; auto.
  - rewrite has_column_add_order_day by reflexivity; auto.
  - intros l Hl; apply column_all_add_order_day;
      [destruct Hl as [<-|[<-|[]]]; reflexivity|].
    now apply column_all_select_rows, coerced_dates.
  - intros l Hl; apply column_all_add_order_day;
      [destruct Hl as [<-|[<-|[<-|[<-|[]]]]]; reflexivity|].
    now apply column_all_select_rows, coerced_numbers.
  - intros l Hl; apply column_all_add_order_day;
      [destruct Hl as [<-|[<-|[<-|[]]]]; reflexivity|].
    apply drop_incomplete_mandatory; rewrite ?has_column_coerced; assumption.
Qed.

(** ** Idempotence of the normalizer *)

Section Idempotence.

(** [pd.to_datetime] leaves timestamps and [NaT] as they are, under either
    ordering; [pd.to_numeric] leaves numbers and [NaN] as they are. *)
Hypothesis to_datetime_keeps : forall dayfirst s c,
  is_datetime c = true -> of_datetime (to_datetime_cell dayfirst s c) = c.
Hypothesis to_numeric_keeps : forall s c,
  is_numeric c = true -> of_numeric (to_numeric_cell s c) = c.

Lemma to_datetime_fixed dayfirst s :
  Forall (fun c => is_datetime c = true) s -> to_datetime dayfirst s = s.
Proof.
  intros H; unfold to_datetime.
  transitivity (map (fun c : cell => c) s); [|apply map_id].
  apply map_ext_in; intros c Hc; apply to_datetime_keeps.
  rewrite Forall_forall in H; auto.
Qed.

Lemma smart_parse_datetime_fixed s :
  Forall (fun c => is_datetime c = true) s -> smart_parse_datetime s = s.
Proof.
  intros H; unfold smart_parse_datetime; rewrite smart_parse_datetime_unfold.
  destruct (_ <? _)%nat; simpl; now apply to_datetime_fixed.
Qed.

Lemma to_numeric_fixed s :
  Forall (fun c => is_numeric c = true) s -> to_numeric s = s.
Proof.
  intros H; unfold to_numeric.
  transitivity (map (fun c : cell => c) s); [|apply map_id].
  apply map_ext_in; intros c Hc; apply to_numeric_keeps.
  rewrite Forall_forall in H; auto.
Qed.

Lemma coerced_normalized df : normalized df -> coerced df = df.
Proof.
  intros N; unfold coerced; cbn [fold_left].
  rewrite (update_column_fixed smart_parse_datetime "Order Date" df)
    by (intros s Hs; apply smart_parse_datetime_fixed;
        apply (norm_dates N) with (l := "Order Date"); [simpl; auto 6|exact Hs]).
  rewrite (update_column_fixed smart_parse_datetime "Ship Date" df)
    by (intros s Hs; apply smart_parse_datetime_fixed;
        apply (norm_dates N) with (l := "Ship Date"); [simpl; auto 6|exact Hs]).
  rewrite (update_column_fixed to_numeric "Sales" df)
    by (intros s Hs; apply to_numeric_fixed;
        apply (norm_numbers N) with (l := "Sales"); [simpl; auto 6|exact Hs]).
  rewrite (update_column_fixed to_numeric "Profit" df)
    by (intros s Hs; apply to_numeric_fixed;
        apply (norm_numbers N) with (l := "Profit"); [simpl; auto 6|exact Hs]).
  rewrite (update_column_fixed to_numeric "Discount" df)
    by (intros s Hs; apply to_numeric_fixed;
        apply (norm_numbers N) with (l := "Discount"); [simpl; auto 6|exact Hs]).
  apply update_column_fixed; intros s Hs; apply to_numeric_fixed.
  apply (norm_numbers N) with (l := "Quantity"); [simpl; auto 6|exact Hs].
Qed.

Lemma drop_incomplete_normalized df : normalized df -> drop_incomplete df = df.
Proof.
  intros N; pose proof (norm_aligned N) as Ha.
  assert (Hod : has_column "Order Date" df = true).
  { destruct (norm_order_date N) as (s & Hs & _).
    now rewrite has_column_lookup, Hs. }
  unfold drop_incomplete.
  rewrite mandatory_mask_rows
    by (first [assumption | apply (norm_has_sales N) | apply (norm_has_profit N)]).
  rewrite <- (select_all_rows df Ha) at 3; f_equal.
  unfold rows; rewrite <- (rows_of_length (index df) (data df)), repeat_as_map.
  apply map_ext_in; intros r Hr; unfold mandatory_present.
  assert (Hfield : forall l, In l ["Order Date"; "Sales"; "Profit"] ->
                   notna (field l r) = true).
  { intros l Hl.
    assert (Hl' : has_column l df = true).
    { destruct Hl as [<-|[<-|[<-|[]]]];
        [assumption | apply (norm_has_sales N) | apply (norm_has_profit N)]. }
    rewrite has_column_lookup in Hl'.
    destruct (lookup l (data df)) as [s|] eqn:E; [|discriminate].
    pose proof (norm_mandatory N Hl E) as Hs.
    pose proof Ha as Hc; apply aligned_columns in Hc.
    rewrite (@column_along_rows _ _ _ _ Hc E), Forall_map, Forall_forall in Hs.
    now apply Hs. }
  rewrite !Hfield by (simpl; auto); reflexivity.
Qed.

Lemma add_order_day_normalized df : normalized df -> add_order_day df = df.
Proof.
  intros N; destruct (norm_order_date N) as (s & Hs & Hd).
  unfold add_order_day, set_column; rewrite Hs.
  rewrite (assign_unchanged _ _ Hd); now destruct df.
Qed.

(** On a normalized table [preprocess] changes nothing. *)
Lemma preprocess_normalized df : normalized df -> preprocess df = ([], inr df).
Proof.
  intros N.
  assert (Hod : has_column "Order Date" df = true).
  { destruct (norm_order_date N) as (s & Hs & _).
    now rewrite has_column_lookup, Hs. }
  rewrite preprocess_returns
    by (first [assumption | apply (norm_has_ship_date N)
              | apply (norm_has_sales N) | apply (norm_has_profit N)]).
  now rewrite coerced_normalized, drop_incomplete_normalized,
    add_order_day_normalized.
Qed.

(** C9.  Normalizing twice is normalizing once: the second pass returns
    the output of the first as it is, and writes nothing to the page. *)
Theorem preprocess_idempotent (x : DataFrame) :
  wf_df x = true ->
  (y <- preprocess x ;; preprocess y) = preprocess x
  /\ forall log y, preprocess x = (log, inr y) -> preprocess y = ([], inr y).
Proof.
  intros Hwf; apply andb_prop in Hwf as [Ha _].
  assert (Hfix : forall log y, preprocess x = (log, inr y) ->
                 preprocess y = ([], inr y)).
  { intros log y Hy; apply preprocess_normalized.
    eapply preprocess_normalizes; eassumption. }
  split; [|exact Hfix].
  destruct (preprocess x) as [log [e|y]] eqn:Hx; [reflexivity|].
  unfold bind; rewrite (Hfix log y eq_refl), app_nil_r; reflexivity.
Qed.

(** X10.  The date heuristic leaves an already parsed column as it is,
    so applying it twice is applying it once. *)
Theorem smart_parse_datetime_idempotent (s : series) :
  smart_parse_datetime (smart_parse_datetime s) = smart_parse_datetime s.
Proof.
  apply smart_parse_datetime_fixed, smart_parse_datetime_typed.
Qed.

End Idempotence.

(** ** More on the filter *)

Lemma first_unfilterable_none df r c s :
  first_unfilterable df r c s = None <->
  unfilterable df ("Region", r) = false
  /\ unfilterable df ("Category", c) = false
  /\ unfilterable df ("Sub-Category", s) = false.
Proof.
  unfold first_unfilterable; cbn [find].
  destruct (unfilterable df ("Region", r)),
    (unfilterable df ("Category", c)),
    (unfilterable df ("Sub-Category", s)); cbn;
    split; intros H; try discriminate; auto;
    destruct H as (? & ? & ?); discriminate.
Qed.

Lemma apply_filters_outcome df r c s :
  (first_unfilterable df r c s = None ->
   apply_filters df r c s = ([], inr (spec_filter df r c s)))
  /\ (forall col, first_unfilterable df r c s = Some col ->
      apply_filters df r c s = ([], inl (KeyError [col]))).
Proof.
  unfold apply_filters, first_unfilterable, spec_filter.
  rewrite !filter_dimension_unfold; cbn [find option_map].
  destruct (unfilterable df ("Region", r));
    [split; [discriminate|intros col [= <-]; reflexivity]|].
  rewrite bind_ret, filter_dimension_unfold.
  destruct (unfilterable df ("Category", c));
    [split; [discriminate|intros col [= <-]; reflexivity]|].
  rewrite bind_ret, filter_dimension_unfold.
  destruct (unfilterable df ("Sub-Category", s));
    [split; [discriminate|intros col [= <-]; reflexivity]|].
  split; [reflexivity|discriminate].
Qed.

Lemma apply_filters_returned df r c s log out :
  apply_filters df r c s = (log, inr out) ->
  first_unfilterable df r c s = None
  /\ log = [] /\ out = select_rows (filter_mask df r c s) df.
Proof.
  destruct (apply_filters_outcome df r c s) as [Hret Hraise].
  destruct (first_unfilterable df r c s) as [col|].
  - rewrite (Hraise col eq_refl); discriminate.
  - rewrite (Hret eq_refl); intros [= <- <-]; auto.
Qed.

Lemma compress_map (A B : Type) (f : A -> B) (mask : list bool) (l : list A) :
  map f (compress mask l) = compress mask (map f l).
Proof.
  revert l; induction mask as [|b mask IH]; intros [|x l]; simpl; auto.
  destruct b; simpl; now rewrite IH.
Qed.

Lemma compress_zip_with (A B C : Type) (f : A -> B -> C) (mask : list bool)
  (xs : list A) (ys : list B) :
  zip_with f (compress mask xs) (compress mask ys)
  = compress mask (zip_with f xs ys).
Proof.
  revert xs ys; induction mask as [|b mask IH]; intros [|x xs] [|y ys];
    simpl; auto.
  - now destruct (compress mask xs), b.
  - destruct b; simpl; now rewrite IH.
Qed.

Lemma compress_repeat (A : Type) (mask : list bool) (l : list A) :
  repeat true (length (compress mask l)) = compress mask (repeat true (length l)).
Proof.
  revert l; induction mask as [|b mask IH]; intros [|x l]; simpl; auto.
  destruct b; simpl; now rewrite IH.
Qed.

Lemma compress_compress (A : Type) (m1 m2 : list bool) (l : list A) :
  compress (compress m1 m2) (compress m1 l) = compress (zip_with andb m1 m2) l.
Proof.
  revert m2 l; induction m1 as [|b1 m1 IH]; intros [|b2 m2] [|x l];
    simpl; auto.
  - now destruct b1, (compress m1 m2).
  - destruct b1; simpl; [|apply IH].
    destruct b2; now rewrite IH.
Qed.

Lemma zip_with_andb_diag (m : list bool) : zip_with andb m m = m.
Proof.
  induction m as [|b m IH]; simpl; [reflexivity|].
  now rewrite IH, andb_diag.
Qed.

Lemma zip_with_andb_comm (a b : list bool) :
  zip_with andb a b = zip_with andb b a.
Proof.
  revert b; induction a as [|x a IH]; intros [|y b]; simpl; auto.
  now rewrite IH, andb_comm.
Qed.

Lemma zip_with_andb_assoc (a b c : list bool) :
  zip_with andb (zip_with andb a b) c = zip_with andb a (zip_with andb b c).
Proof.
  revert b c; induction a as [|x a IH]; intros [|y b] [|z c]; simpl; auto.
  now rewrite IH, andb_assoc.
Qed.

Lemma zip_with_andb_all_true (m : list bool) (n : nat) :
  length m <= n -> zip_with andb m (repeat true n) = m.
Proof.
  revert n; induction m as [|b m IH]; intros [|n] Hn; simpl in *;
    try reflexivity; try lia.
  rewrite andb_true_r, IH by lia; reflexivity.
Qed.

Lemma zip_with_length_le (A B C : Type) (f : A -> B -> C) xs ys :
  length (zip_with f xs ys) <= length xs.
Proof.
  revert ys; induction xs as [|x xs IH]; intros [|y ys]; simpl; try lia.
  specialize (IH ys); lia.
Qed.

Lemma constrain_length_le col sel df mask :
  length (constrain col sel df mask) <= length mask.
Proof.
  unfold constrain; destruct (truthy sel); [|lia].
  destruct (lookup col (data df)); [apply zip_with_length_le|lia].
Qed.

Lemma constrain_zip_with col sel df a b :
  zip_with andb a (constrain col sel df b)
  = constrain col sel df (zip_with andb a b).
Proof.
  unfold constrain; destruct (truthy sel); [|reflexivity].
  destruct (lookup col (data df)); [|reflexivity].
  now rewrite zip_with_andb_assoc.
Qed.

Lemma constrain_no_selection col df mask : constrain col [] df mask = mask.
Proof.
  reflexivity.
Qed.

(** The mask of a filter on selected rows is the selection of its mask on
    all rows. *)
Lemma constrain_select_rows col sel m df mask :
  constrain col sel (select_rows m df) (compress m mask)
  = compress m (constrain col sel df mask).
Proof.
  unfold constrain; destruct (truthy sel); [|reflexivity].
  simpl; rewrite lookup_map_values.
  destruct (lookup col (data df)) as [s|]; simpl; [|reflexivity].
  now rewrite compress_map, compress_zip_with.
Qed.

Lemma filter_mask_select_rows m df r c s :
  filter_mask (select_rows m df) r c s = compress m (filter_mask df r c s).
Proof.
  unfold filter_mask; cbn [index select_rows].
  now rewrite compress_repeat, !constrain_select_rows.
Qed.

Lemma select_rows_select_rows m1 m2 df :
  select_rows (compress m1 m2) (select_rows m1 df)
  = select_rows (zip_with andb m1 m2) df.
Proof.
  unfold select_rows; simpl; rewrite compress_compress; f_equal.
  rewrite map_values_compose; apply map_values_ext_in.
  intros lv _; apply compress_compress.
Qed.

Lemma unfilterable_select_rows m df dim :
  unfilterable (select_rows m df) dim = unfilterable df dim.
Proof.
  unfold unfilterable; now rewrite has_column_select_rows.
Qed.

Lemma first_unfilterable_select_rows m df r c s :
  first_unfilterable (select_rows m df) r c s = first_unfilterable df r c s.
Proof.
  unfold first_unfilterable; cbn [find].
  now rewrite !unfilterable_select_rows.
Qed.

(** One filter after another. *)
Lemma apply_filters_twice df r1 c1 s1 r2 c2 s2 :
  (out <- apply_filters df r1 c1 s1 ;; apply_filters out r2 c2 s2)
  = match first_unfilterable df r1 c1 s1 with
    | Some col => ([], inl (KeyError [col]))
    | None =>
        match first_unfilterable df r2 c2 s2 with
        | Some col => ([], inl (KeyError [col]))
        | None =>
            ([], inr (select_rows
                        (zip_with andb (filter_mask df r1 c1 s1)
                           (filter_mask df r2 c2 s2)) df))
        end
    end.
Proof.
  destruct (apply_filters_outcome df r1 c1 s1) as [Hret Hraise].
  destruct (first_unfilterable df r1 c1 s1) as [col|].
  - now rewrite (Hraise col eq_refl).
  - rewrite (Hret eq_refl); unfold bind, spec_filter.
    fold (filter_mask df r1 c1 s1).
    destruct (apply_filters_outcome
                (select_rows (filter_mask df r1 c1 s1) df) r2 c2 s2)
      as [Hret2 Hraise2].
    rewrite first_unfilterable_select_rows in Hret2, Hraise2.
    destruct (first_unfilterable df r2 c2 s2) as [col|].
    + now rewrite (Hraise2 col eq_refl).
    + rewrite (Hret2 eq_refl); unfold spec_filter.
      fold (filter_mask (select_rows (filter_mask df r1 c1 s1) df) r2 c2 s2).
      now rewrite filter_mask_select_rows, select_rows_select_rows.
Qed.

(** The mask of the filter, row by row. *)
Lemma constrain_rows col sel df (p : row -> bool) :
  aligned df = true ->
  unfilterable df (col, sel) = false ->
  constrain col sel df (map p (rows df))
  = map (fun r => p r && passes col sel r) (rows df).
Proof.
  intros Ha Hu; unfold constrain, passes, unfilterable in *; simpl in Hu.
  destruct (truthy sel); simpl in Hu.
  - apply negb_false_iff in Hu; rewrite has_column_lookup in Hu.
    destruct (lookup col (data df)) as [s|] eqn:E; [|discriminate].
    apply aligned_columns in Ha.
    rewrite (@column_along_rows _ _ _ _ Ha E); fold (rows df).
    now rewrite map_map, zip_with_map.
  - apply map_ext; intros r; now rewrite andb_true_r.
Qed.

Lemma filter_mask_rows df r c s :
  aligned df = true ->
  first_unfilterable df r c s = None ->
  filter_mask df r c s = map (passes_all r c s) (rows df).
Proof.
  intros Ha Hn; apply first_unfilterable_none in Hn as (Hr & Hc & Hs).
  unfold filter_mask.
  rewrite <- (rows_of_length (index df) (data df)); fold (rows df).
  rewrite repeat_as_map, !constrain_rows by assumption.
  apply map_ext; intros x; reflexivity.
Qed.

Lemma spec_filter_rows df r c s :
  aligned df = true ->
  first_unfilterable df r c s = None ->
  rows (spec_filter df r c s) = filter (passes_all r c s) (rows df).
Proof.
  intros Ha Hn; unfold spec_filter; fold (filter_mask df r c s).
  rewrite rows_select_rows, filter_mask_rows by assumption.
  apply compress_map_filter.
Qed.

(** X12.  On a table whose dimensions with a non-empty selection all have
    their column, the filter returns the rows whose value is in the
    selection for each such dimension, in their order, and no other. *)
Theorem apply_filters_rows df r c s :
  aligned df = true ->
  first_unfilterable df r c s = None ->
  exists out,
    apply_filters df r c s = ([], inr out)
    /\ rows out = filter (passes_all r c s) (rows df).
Proof.
  intros Ha Hn; exists (spec_filter df r c s); split.
  - now apply apply_filters_outcome.
  - now apply spec_filter_rows.
Qed.

Lemma columns_select_rows m df : columns (select_rows m df) = columns df.
Proof.
  unfold columns, select_rows, map_values; simpl; now rewrite map_map.
Qed.

Lemma compress_length_le (A : Type) (mask : list bool) (l : list A) :
  length (compress mask l) <= length l.
Proof.
  revert l; induction mask as [|b mask IH]; intros [|x l]; simpl; try lia.
  specialize (IH l); destruct b; simpl; lia.
Qed.

(** X13.  Whatever the filter returns has the columns of its input, same
    labels in the same order, and is a selection of its rows: the same
    positions of the index and of every column.  It writes nothing to the
    page. *)
Theorem apply_filters_keeps_columns df r c s log out :
  apply_filters df r c s = (log, inr out) ->
  log = []
  /\ columns out = columns df
  /\ length (index out) <= length (index df)
  /\ exists mask, out = select_rows mask df.
Proof.
  intros H; apply apply_filters_returned in H as (_ & -> & ->).
  split; [reflexivity|]; split; [apply columns_select_rows|].
  split; [apply compress_length_le|eauto].
Qed.

(** X14.  Filtering twice with the same selections is filtering once. *)
Theorem apply_filters_idempotent df r c s :
  (out <- apply_filters df r c s ;; apply_filters out r c s)
  = apply_filters df r c s.
Proof.
  rewrite apply_filters_twice.
  destruct (apply_filters_outcome df r c s) as [Hret Hraise].
  destruct (first_unfilterable df r c s) as [col|].
  - now rewrite (Hraise col eq_refl).
  - now rewrite (Hret eq_refl), zip_with_andb_diag.
Qed.

(** X15.  Two filters return the same table in either order; when one of
    them raises, neither order returns. *)
Theorem apply_filters_commute df r1 c1 s1 r2 c2 s2 :
  returned (out <- apply_filters df r1 c1 s1 ;; apply_filters out r2 c2 s2)
  = returned (out <- apply_filters df r2 c2 s2 ;; apply_filters out r1 c1 s1).
Proof.
  rewrite !apply_filters_twice.
  destruct (first_unfilterable df r1 c1 s1), (first_unfilterable df r2 c2 s2);
    try reflexivity.
  now rewrite zip_with_andb_comm.
Qed.

(** X16.  Filtering by region and then by category and sub-category is
    filtering by the three at once, errors included. *)
Theorem apply_filters_by_dimension df r c s :
  (out <- apply_filters df r [] [] ;; apply_filters out [] c s)
  = apply_filters df r c s.
Proof.
  rewrite apply_filters_twice.
  destruct (apply_filters_outcome df r c s) as [Hret Hraise].
  unfold first_unfilterable in *; cbn [find] in *.
  unfold unfilterable at 2 3 4; cbn [truthy snd andb].
  destruct (unfilterable df ("Region", r));
    [now rewrite (Hraise _ eq_refl)|].
  destruct (unfilterable df ("Category", c));
    [now rewrite (Hraise _ eq_refl)|].
  destruct (unfilterable df ("Sub-Category", s));
    [now rewrite (Hraise _ eq_refl)|].
  cbn [option_map]; rewrite (Hret eq_refl).
  unfold spec_filter; do 2 f_equal.
  unfold filter_mask; rewrite !constrain_no_selection.
  rewrite !constrain_zip_with, zip_with_andb_all_true; [reflexivity|].
  etransitivity; [apply constrain_length_le|now rewrite repeat_length].
Qed.

(** ** More on the normalizer *)

Lemma preprocess_returned_form (df : DataFrame) log out :
  preprocess df = (log, inr out) ->
  log = []
  /\ out = add_order_day (drop_incomplete (coerced df))
  /\ has_column "Order Date" df = true
  /\ has_column "Ship Date" df = true
  /\ has_column "Sales" df = true
  /\ has_column "Profit" df = true.
Proof.
  intros Hout.
  destruct (has_column "Order Date" df) eqn:Hod;
    [|rewrite preprocess_missing_order_date in Hout by assumption; discriminate].
  destruct (has_column "Ship Date" df) eqn:Hsd;
    [|rewrite preprocess_missing_ship_date in Hout by assumption; discriminate].
  pose proof Hout as Hhas.
  apply preprocess_returned_has in Hhas as [Hsa Hpr]; [|assumption..].
  rewrite preprocess_returns in Hout by assumption.
  injection Hout as <- <-; auto 8.
Qed.


Lemma typed_cells (p q r : cell -> bool) (s : series) :
  (forall c, p c = true -> q c = true -> r c = true) ->
  Forall (fun c => p c = true) s -> Forall (fun c => q c = true) s ->
  Forall (fun c => r c = true) s.
Proof.
  intros H Hp Hq; rewrite Forall_forall in Hp, Hq |- *; auto.
Qed.

Lemma normalized_typed (df : DataFrame) : normalized df -> typed_table df.
Proof.
  intros N; destruct (norm_order_date N) as (od & Hod & Hday).
  assert (Hts : Forall (fun c => is_timestamp c = true) od).
  { apply (@typed_cells is_datetime notna).
    - intros [| | | |] H1 H2; try discriminate H1; try discriminate H2;
        reflexivity.
    - apply (norm_dates N) with (l := "Order Date"); [simpl; auto|exact Hod].
    - apply (norm_mandatory N) with (l := "Order Date"); [simpl; auto|exact Hod]. }
  assert (Hnum : forall l, In l ["Sales"; "Profit"] ->
                 has_column l df = true -> column_is is_number l df).
  { intros l Hl Hhas; rewrite has_column_lookup in Hhas.
    destruct (lookup l (data df)) as [s|] eqn:E; [|discriminate].
    exists s; split; [exact E|].
    apply (@typed_cells is_numeric notna).
    - intros [| | | |] H1 H2; try discriminate H1; try discriminate H2;
        reflexivity.
    - apply (norm_numbers N) with (l := l); [|exact E].
      destruct Hl as [<-|[<-|[]]]; simpl; auto.
    - apply (norm_mandatory N) with (l := l); [|exact E].
      destruct Hl as [<-|[<-|[]]]; simpl; auto. }
  repeat split.
  - exists od; auto.
  - exists (map dt_date od); split; [assumption|].
    rewrite Forall_map; eapply Forall_impl; [|exact Hts].
    intros [| | | |] H; try discriminate H; reflexivity.
  - exists od; auto.
  - apply (norm_has_ship_date N).
  - apply (norm_dates N); simpl; auto.
  - apply Hnum; [simpl; auto|apply (norm_has_sales N)].
  - apply Hnum; [simpl; auto|apply (norm_has_profit N)].
  - apply (norm_numbers N); simpl; auto.
  - apply (norm_numbers N); simpl; auto 6.
Qed.

(** X6.  Every table [preprocess] returns has timestamps in [Order Date],
    their calendar days in [Order Date (Date)], timestamps or nulls in
    [Ship Date], numbers in [Sales] and [Profit], and numbers or nulls in
    [Discount] and [Quantity] when it has them. *)
Theorem preprocess_output_typed (df : DataFrame) log out :
  wf_df df = true ->
  preprocess df = (log, inr out) ->
  typed_table out.
Proof.
  intros Hwf Hout; apply andb_prop in Hwf as [Ha _].
  apply normalized_typed; eapply preprocess_normalizes; eassumption.
Qed.

Lemma columns_assign (V : Type) (l : string) (v : V) d :
  map fst (assign l v d)
  = if existsb (String.eqb l) (map fst d) then map fst d else map fst d ++ [l].
Proof.
  induction d as [|[k w] d IH]; simpl; [reflexivity|].
  rewrite (String.eqb_sym l k); destruct (k =? l)%string; simpl;
    [reflexivity|].
  rewrite IH; now destruct (existsb (String.eqb l) (map fst d)).
Qed.

Lemma columns_add_order_day (df : DataFrame) :
  has_column "Order Date" df = true ->
  columns (add_order_day df)
  = if has_column "Order Date (Date)" df then columns df
    else columns df ++ ["Order Date (Date)"].
Proof.
  intros H; rewrite has_column_lookup in H; unfold add_order_day.
  destruct (lookup "Order Date" (data df)); [|discriminate].
  apply columns_assign.
Qed.

(** X7.  [preprocess] keeps the labels of its input in their order; the
    derived [Order Date (Date)] comes last, or takes the place of a column
    of that label. *)
Theorem preprocess_column_order (df : DataFrame) log out :
  preprocess df = (log, inr out) ->
  columns out
  = if has_column "Order Date (Date)" df then columns df
    else columns df ++ ["Order Date (Date)"].
Proof.
  intros H; apply preprocess_returned_form in H as (_ & -> & Hod & _).
  rewrite columns_add_order_day
    by (unfold drop_incomplete; now rewrite has_column_select_rows, has_column_coerced).
  unfold drop_incomplete.
  now rewrite has_column_select_rows, has_column_coerced, columns_select_rows,
    columns_coerced.
Qed.

(** X8.  A column that is none of the six parsed ones nor the derived one
    comes out as it went in, cut down to the rows that are kept. *)
Theorem preprocess_passes_other_columns (df : DataFrame) log out (l : string) :
  wf_df df = true ->
  ~ In l ["Order Date"; "Ship Date"; "Sales"; "Profit"; "Discount"; "Quantity";
          "Order Date (Date)"] ->
  preprocess df = (log, inr out) ->
  lookup l (data out)
  = option_map (compress (map mandatory_present (rows (coerced df))))
      (lookup l (data df)).
Proof.
  intros Hwf Hl H; apply andb_prop in Hwf as [Ha _].
  apply preprocess_returned_form in H as (_ & -> & Hod & Hsd & Hsa & Hpr).
  assert (Hne : forall x, In x ["Order Date"; "Ship Date"; "Sales"; "Profit";
                                "Discount"; "Quantity"; "Order Date (Date)"] ->
                (x =? l)%string = false).
  { intros x Hx; apply String.eqb_neq; intros ->; contradiction. }
  rewrite lookup_add_order_day_other by (apply Hne; simpl; auto 8).
  unfold drop_incomplete; cbn [data select_rows].
  rewrite lookup_map_values, mandatory_mask_rows
    by (rewrite ?has_column_coerced; auto using aligned_coerced).
  rewrite lookup_coerced; unfold coercion; cbn [existsb].
  rewrite !Hne by (simpl; auto 8); cbn.
  now destruct (lookup l (data df)).
Qed.

Lemma compress_nil (A : Type) (mask : list bool) : compress mask (@nil A) = [].
Proof.
  now destruct mask.
Qed.

Lemma index_add_order_day (df : DataFrame) : index (add_order_day df) = index df.
Proof.
  unfold add_order_day; now destruct (lookup "Order Date" (data df)).
Qed.

(** X9.  A table with the four columns and no row normalizes to a table
    with no row: every column of the output is empty. *)
Theorem preprocess_empty_table (df : DataFrame) :
  wf_df df = true ->
  index df = [] ->
  has_column "Order Date" df = true ->
  has_column "Ship Date" df = true ->
  has_column "Sales" df = true ->
  has_column "Profit" df = true ->
  exists out,
    preprocess df = ([], inr out)
    /\ index out = []
    /\ Forall (fun lc => snd lc = []) (data out).
Proof.
  intros Hwf Hidx Hod Hsd Hsa Hpr; apply andb_prop in Hwf as [Ha _].
  eexists; split; [now apply preprocess_returns|].
  assert (Hi : index (add_order_day (drop_incomplete (coerced df))) = []).
  { rewrite index_add_order_day; unfold drop_incomplete; cbn [index select_rows].
    now rewrite index_coerced, Hidx, compress_nil. }
  split; [exact Hi|].
  assert (Hal : aligned (add_order_day (drop_incomplete (coerced df))) = true)
    by now apply aligned_add_order_day, aligned_select_rows, aligned_coerced.
  apply aligned_columns in Hal; rewrite Hi in Hal.
  eapply Forall_impl; [|exact Hal]; intros [k c]; simpl.
  now destruct c.
Qed.

Lemma normalized_select_rows (mask : list bool) (df : DataFrame) :
  normalized df -> normalized (select_rows mask df).
Proof.
  intros N; constructor.
  - apply aligned_select_rows, (norm_aligned N).
  - destruct (norm_order_date N) as (s & Hs & Hd).
    exists (compress mask s); simpl.
    now rewrite !lookup_map_values, Hs, Hd, compress_map.
  - rewrite has_column_select_rows; apply (norm_has_ship_date N).
  - rewrite has_column_select_rows; apply (norm_has_sales N).
  - rewrite has_column_select_rows; apply (norm_has_profit N).
  - intros l Hl; apply column_all_select_rows, (norm_dates N), Hl.
  - intros l Hl; apply column_all_select_rows, (norm_numbers N), Hl.
  - intros l Hl; apply column_all_select_rows, (norm_mandatory N), Hl.
Qed.

(** X19.  After [preprocess] and any filter that returns, the table has
    the columns of the normalized table and their types: the sums, groups
    and date axis the script computes next read columns that are there. *)
Theorem filtered_table_typed (x y z : DataFrame) l1 l2 r c s :
  wf_df x = true ->
  preprocess x = (l1, inr y) ->
  apply_filters y r c s = (l2, inr z) ->
  columns z = columns y /\ typed_table z.
Proof.
  intros Hwf Hy Hz; apply andb_prop in Hwf as [Ha _].
  apply apply_filters_returned in Hz as (_ & _ & ->).
  split; [apply columns_select_rows|].
  apply normalized_typed, normalized_select_rows.
  eapply preprocess_normalizes; eassumption.
Qed.

(** ** More on the date heuristic *)

(** X11.  A result with more than half of its cells null is never the
    month-first reading: both orderings were tried and the month-first one
    had more than half of its cells null as well. *)
Theorem majority_null_result_is_day_first (s : series) :
  length s < 2 * count_na (smart_parse_datetime s) ->
  length s < 2 * count_na (to_datetime false s)
  /\ smart_parse_datetime_calls s = ([false; true], to_datetime true s).
Proof.
  unfold smart_parse_datetime; rewrite smart_parse_datetime_unfold.
  destruct (Nat.ltb_spec (length s) (2 * count_na (to_datetime false s)))
    as [Hlt|Hge]; simpl; intros Hres; [auto|lia].
Qed.

(** ** The sidebar options *)

Lemma cell_eqb_refl (c : cell) : cell_eqb c c = true.
Proof.
  destruct c; simpl; auto using String.eqb_refl, Z.eqb_refl.
  apply Qeq_bool_iff; reflexivity.
Qed.

Lemma cell_eqb_NA (c : cell) : cell_eqb NA c = true -> c = NA.
Proof.
  destruct c; simpl; intros H; try discriminate H; reflexivity.
Qed.

Lemma unique_from_In (c : cell) (l : series) : forall seen,
  In c (unique_from seen l) -> In c l.
Proof.
  induction l as [|d l IH]; intros seen; simpl; [auto|].
  destruct (existsb (cell_eqb d) seen); simpl; intros H.
  - right; eapply IH; eassumption.
  - destruct H as [H|H]; [auto|right; eapply IH; eassumption].
Qed.

Lemma unique_from_covers (c : cell) (l : series) : forall seen,
  In c l ->
  existsb (cell_eqb c) seen || existsb (cell_eqb c) (unique_from seen l) = true.
Proof.
  induction l as [|d l IH]; intros seen; simpl; [intros []|].
  intros [->|Hin].
  - destruct (existsb (cell_eqb c) seen) eqn:E; [reflexivity|].
    simpl; now rewrite cell_eqb_refl.
  - destruct (existsb (cell_eqb d) seen) eqn:E; [now apply IH|].
    specialize (IH (d :: seen) Hin); simpl in IH |- *.
    destruct (cell_eqb c d), (existsb (cell_eqb c) seen); auto.
Qed.

Lemma unique_from_fresh (l : series) : forall seen,
  NoDup (unique_from seen l)
  /\ forall c, In c (unique_from seen l) -> existsb (cell_eqb c) seen = false.
Proof.
  induction l as [|d l IH]; intros seen; simpl.
  - split; [constructor|intros c []].
  - destruct (existsb (cell_eqb d) seen) eqn:E; [apply IH|].
    destruct (IH (d :: seen)) as [Hnd Hfresh]; split.
    + constructor; [|assumption].
      intros Hin; specialize (Hfresh d Hin); simpl in Hfresh.
      now rewrite cell_eqb_refl in Hfresh.
    + intros c [<-|Hin]; [assumption|].
      specialize (Hfresh c Hin); simpl in Hfresh.
      now apply orb_false_iff in Hfresh.
Qed.

Lemma options_unfold (col : string) (df : DataFrame) :
  options col df =
  match lookup col (data df) with
  | Some s => ([], sorted (unique (filter notna s)))
  | None => ([], inr [])
  end.
Proof.
  unfold options, get_column; rewrite has_column_lookup.
  destruct (lookup col (data df)); [|reflexivity].
  now rewrite bind_ret.
Qed.

Lemma options_unfilterable (col : string) (df : DataFrame) log opts sel :
  options col df = (log, inr opts) ->
  incl sel opts ->
  unfilterable df (col, sel) = false.
Proof.
  rewrite options_unfold; unfold unfilterable; simpl.
  rewrite has_column_lookup.
  destruct (lookup col (data df)); [intros _ _; apply andb_false_r|].
  intros [= <- <-] Hincl; destruct sel as [|c sel]; [reflexivity|].
  destruct (Hincl c (or_introl eq_refl)).
Qed.

(** X18.  Selections made in the sidebar never make the filter raise: a
    dimension whose column is absent offers no option, so its selection is
    empty. *)
Theorem sidebar_selection_never_raises (df : DataFrame)
  l1 l2 l3 regions cats subcats region_sel category_sel subcat_sel :
  options "Region" df = (l1, inr regions) ->
  options "Category" df = (l2, inr cats) ->
  options "Sub-Category" df = (l3, inr subcats) ->
  incl region_sel regions ->
  incl category_sel cats ->
  incl subcat_sel subcats ->
  exists out, apply_filters df region_sel category_sel subcat_sel = ([], inr out).
Proof.
  intros H1 H2 H3 I1 I2 I3; eexists.
  apply apply_filters_outcome, first_unfilterable_none.
  repeat split; eapply options_unfilterable; eassumption.
Qed.

Section Sidebar.

(** [sorted] returns its argument in another order. *)
Hypothesis sorted_permutes : forall l l', sorted l = inr l' -> Permutation l l'.

Lemma existsb_Permutation (A : Type) (f : A -> bool) (l l' : list A) :
  Permutation l l' -> existsb f l = existsb f l'.
Proof.
  intros H; apply eq_true_iff_eq; rewrite !existsb_exists.
  split; intros (x & Hx & Hf); exists x; split; auto.
  - eapply Permutation_in; eassumption.
  - eapply Permutation_in; [apply Permutation_sym|]; eassumption.
Qed.

Lemma options_isin (col : string) (df : DataFrame) log opts s c :
  options col df = (log, inr opts) ->
  lookup col (data df) = Some s ->
  In c s ->
  isin opts c = notna c.
Proof.
  rewrite options_unfold; intros H E Hin; rewrite E in H.
  injection H as _ H; apply sorted_permutes in H.
  unfold isin; rewrite <- (existsb_Permutation _ H).
  destruct (notna c) eqn:Hc.
  - assert (Hf : In c (filter notna s)) by (apply filter_In; auto).
    pose proof (unique_from_covers c (filter notna s) [] Hf) as Hcov.
    exact Hcov.
  - destruct c; try discriminate Hc.
    destruct (existsb (cell_eqb NA) (unique (filter notna s))) eqn:Hex;
      [|reflexivity].
    apply existsb_exists in Hex as (d & Hd & Heq).
    apply cell_eqb_NA in Heq; subst d.
    apply unique_from_In, filter_In in Hd as [_ Hd]; discriminate Hd.
Qed.

(** X1.  The options of a dimension are the non-null values of its
    column, each once: every option is a non-null cell of the column, and
    a cell of the column is among the options exactly when it is not
    null. *)
Theorem options_cover_column (col : string) (df : DataFrame) log opts s :
  options col df = (log, inr opts) ->
  lookup col (data df) = Some s ->
  log = []
  /\ NoDup opts
  /\ (forall c, In c opts -> In c s /\ notna c = true)
  /\ (forall c, In c s -> isin opts c = notna c).
Proof.
  intros H E; pose proof H as H'.
  rewrite options_unfold, E in H'; injection H' as <- Hs.
  apply sorted_permutes in Hs.
  split; [reflexivity|]; split; [|split].
  - eapply Permutation_NoDup; [exact Hs|apply unique_from_fresh].
  - intros c Hc; apply (Permutation_in _ (Permutation_sym Hs)) in Hc.
    apply unique_from_In, filter_In in Hc; exact Hc.
  - intros c Hc; eapply options_isin; eassumption.
Qed.

Lemma passes_options (col : string) (df : DataFrame) log opts (r : row) :
  aligned df = true ->
  options col df = (log, inr opts) ->
  In r (rows df) ->
  passes col opts r = passes_default col opts r.
Proof.
  intros Ha H Hr; unfold passes, passes_default.
  destruct (truthy opts) eqn:Ht; [simpl|reflexivity].
  destruct (lookup col (data df)) as [s|] eqn:E.
  - eapply options_isin; [exact H|exact E|].
    apply aligned_columns in Ha.
    rewrite (@column_along_rows _ _ _ _ Ha E); fold (rows df).
    now apply in_map.
  - rewrite options_unfold, E in H; injection H as _ <-; discriminate Ht.
Qed.

(** X17.  With the sidebar left as it opens, every option of every
    dimension selected, the filter keeps the rows that have a value in
    each dimension that has one anywhere: a row with a null region is
    dropped as soon as some row has a region. *)
Theorem default_selection_rows (df : DataFrame) l1 l2 l3 regions cats subcats :
  aligned df = true ->
  options "Region" df = (l1, inr regions) ->
  options "Category" df = (l2, inr cats) ->
  options "Sub-Category" df = (l3, inr subcats) ->
  exists out,
    apply_filters df regions cats subcats = ([], inr out)
    /\ rows out
       = filter (fun r => passes_default "Region" regions r
                          && passes_default "Category" cats r
                          && passes_default "Sub-Category" subcats r)
           (rows df).
Proof.
  intros Ha H1 H2 H3.
  assert (Hn : first_unfilterable df regions cats subcats = None).
  { apply first_unfilterable_none.
    repeat split; eapply options_unfilterable;
      try eassumption; apply incl_refl. }
  exists (spec_filter df regions cats subcats); split.
  - now apply apply_filters_outcome.
  - rewrite spec_filter_rows by assumption.
    apply filter_ext_in; intros r Hr; unfold passes_all.
    now rewrite (@passes_options _ _ _ _ _ Ha H1 Hr),
      (@passes_options _ _ _ _ _ Ha H2 Hr), (@passes_options _ _ _ _ _ Ha H3 Hr).
Qed.

End Sidebar.

(** ** More on the loader *)

Lemma lower_append (a b : string) :
  PyStr.lower (a ++ b) = (PyStr.lower a ++ PyStr.lower b)%string.
Proof.
  induction a as [|c a IH]; simpl; [reflexivity|]; now rewrite IH.
Qed.

Lemma length_append (a b : string) :
  String.length (a ++ b) = String.length a + String.length b.
Proof.
  induction a as [|c a IH]; simpl; auto.
Qed.

Lemma substring_all (b : string) : substring 0 (String.length b) b = b.
Proof.
  induction b as [|c b IH]; simpl; [reflexivity|]; now rewrite IH.
Qed.

Lemma substring_append (a b : string) :
  substring (String.length a) (String.length b) (a ++ b) = b.
Proof.
  induction a as [|c a IH]; simpl; [apply substring_all|assumption].
Qed.

Lemma endswith_append (a b : string) : PyStr.endswith (a ++ b) b = true.
Proof.
  unfold PyStr.endswith; rewrite length_append.
  replace (String.length a + String.length b - String.length b)
    with (String.length a) by lia.
  rewrite substring_append, String.eqb_refl, andb_true_r.
  apply Nat.leb_le; lia.
Qed.

Lemma spreadsheet_suffix (stem ext : string) :
  PyStr.lower ext = ".xlsx" \/ PyStr.lower ext = ".xls" ->
  PyStr.endswith (PyStr.lower (stem ++ ext)) ".xlsx"
  || PyStr.endswith (PyStr.lower (stem ++ ext)) ".xls" = true.
Proof.
  rewrite lower_append; intros [-> | ->]; rewrite endswith_append;
    [reflexivity|apply orb_true_r].
Qed.

(** X2.  The spreadsheet reader is chosen by the end of the name, in any
    letter case, for an upload and for a path alike: the table is whatever
    [read_excel] makes of the source. *)
Theorem spreadsheet_extension_any_case (file : option string)
  (stem ext : string) (bytes : list Byte.byte) :
  PyStr.lower ext = ".xlsx" \/ PyStr.lower ext = ".xls" ->
  read_source file (Some (mkUploadedFile (stem ++ ext) bytes))
  = excel_reader (FromUpload (mkUploadedFile (stem ++ ext) bytes))
  /\ (path_exists (stem ++ ext) = true ->
      read_source (Some (stem ++ ext)%string) None
      = excel_reader (FromPath (stem ++ ext))).
Proof.
  intros H; apply (spreadsheet_suffix stem) in H.
  unfold read_source; cbn [name existsb]; rewrite orb_false_r, H.
  split; [reflexivity|]; now intros ->.
Qed.






(** ** The script around [load_data] *)


End Pipeline.

(** ** The pipeline on the reference interpretation *)

Lemma sample_to_datetime_keeps (dayfirst : bool) (s : series) (c : cell) :
  is_datetime c = true ->
  of_datetime (Sample.to_datetime_cell dayfirst s c) = c.
Proof.
  destruct c; simpl; intros H; try discriminate H; reflexivity.
Qed.

Lemma sample_to_numeric_keeps (s : series) (c : cell) :
  is_numeric c = true -> of_numeric (Sample.to_numeric_cell s c) = c.
Proof.
  destruct c; simpl; intros H; try discriminate H; reflexivity.
Qed.

(** Two of three dates have no month-first reading and all have a
    day-first one: the day-first reading is returned. *)
Example day_first_dates_read_day_first :
  count_na (to_datetime Sample.to_datetime_cell false Sample.day_first_dates) = 2
  /\ smart_parse_datetime Sample.to_datetime_cell Sample.day_first_dates
     = to_datetime Sample.to_datetime_cell true Sample.day_first_dates
  /\ count_na (smart_parse_datetime Sample.to_datetime_cell Sample.day_first_dates)
     = 0.
Proof.
  repeat split; reflexivity.
Qed.

(** One of two dates has no month-first reading, both have a day-first
    one: half is not more than half, the month-first reading is kept with
    its null. *)
Example month_first_kept_at_half :
  count_na (to_datetime Sample.to_datetime_cell false Sample.half_day_first) = 1
  /\ count_na (to_datetime Sample.to_datetime_cell true Sample.half_day_first) = 0
  /\ smart_parse_datetime_calls Sample.to_datetime_cell Sample.half_day_first
     = ([false], to_datetime Sample.to_datetime_cell false Sample.half_day_first).
Proof.
  repeat split; reflexivity.
Qed.

Lemma day_first_reading_is_final_witness :
  length Sample.mostly_unreadable
  < 2 * count_na (to_datetime Sample.to_datetime_cell false Sample.mostly_unreadable)
  /\ count_na (to_datetime Sample.to_datetime_cell false Sample.mostly_unreadable)
     < count_na (to_datetime Sample.to_datetime_cell true Sample.mostly_unreadable)
  /\ smart_parse_datetime Sample.to_datetime_cell Sample.mostly_unreadable
     = to_datetime Sample.to_datetime_cell true Sample.mostly_unreadable
  /\ fst (smart_parse_datetime_calls Sample.to_datetime_cell Sample.mostly_unreadable)
     = [false; true].
Proof.
  split; [vm_compute; lia|].
  split; [vm_compute; lia|].
  apply (@day_first_reading_is_final Sample.to_datetime_cell Sample.mostly_unreadable).
  vm_compute; lia.
Defined.

Lemma load_data_missing_path_witness :
  Sample.no_file DATA_PATH = false
  /\ load_data Sample.no_file Sample.excel_reader Sample.csv_reader
       (Some DATA_PATH) None
     = ([], inl (FileNotFoundError DATA_PATH))
  /\ returned
       (load_data Sample.no_file Sample.excel_reader Sample.csv_reader
          (Some DATA_PATH) None)
     = None.
Proof.
  split; [reflexivity|].
  apply (@load_data_missing_path Sample.no_file Sample.excel_reader
           Sample.csv_reader DATA_PATH).
  reflexivity.
Defined.


Lemma load_data_upload_text_raises_witness :
  PyStr.endswith (PyStr.lower (name Sample.upload_csv)) ".xlsx" = false
  /\ PyStr.endswith (PyStr.lower (name Sample.upload_csv)) ".xls" = false
  /\ load_data Sample.any_file Sample.excel_reader Sample.csv_reader
       (Some DATA_PATH) (Some Sample.upload_csv)
     = ([], inl (TypeError "errors")).
Proof.
  split; [reflexivity|]; split; [reflexivity|].
  apply (@load_data_upload_text_raises Sample.any_file Sample.excel_reader
           Sample.csv_reader (Some DATA_PATH) Sample.upload_csv);
    reflexivity.
Defined.

(** With [Region] absent and a non-empty region selection the filter
    raises and returns no table: the dimension is not skipped. *)
Lemma region_selection_without_region_raises :
  has_column "Region" Sample.orders_without_region = false
  /\ truthy [Str "East"] = true
  /\ raised (apply_filters Sample.orders_without_region [Str "East"] [] [])
     = Some (KeyError ["Region"])
  /\ returned (apply_filters Sample.orders_without_region [Str "East"] [] [])
     = None.
Proof.
  repeat split; reflexivity.
Qed.

Lemma apply_filters_no_selection_witness :
  aligned Sample.orders = true
  /\ apply_filters Sample.orders [] [] [] = ([], inr Sample.orders).
Proof.
  split; [reflexivity|].
  apply (@apply_filters_no_selection Sample.orders); reflexivity.
Defined.

Lemma preprocess_keeps_complete_rows_witness :
  wf_df Sample.orders = true
  /\ has_column "Order Date" Sample.orders = true
  /\ has_column "Ship Date" Sample.orders = true
  /\ exists out,
       preprocess Sample.to_datetime_cell Sample.to_numeric_cell Sample.orders
       = ([], inr out)
       /\ map fst (rows out) = [0; 2]%Z
       /\ Forall (fun r => mandatory_present r = true) (rows out).
Proof.
  split; [reflexivity|]; split; [reflexivity|]; split; [reflexivity|].
  destruct (@preprocess_keeps_complete_rows Sample.to_datetime_cell
              Sample.to_numeric_cell Sample.orders eq_refl eq_refl eq_refl)
    as (_ & _ & _ & _ & Hrows & Hout).
  destruct (Hout eq_refl eq_refl) as [out Hpre].
  destruct (Hrows _ _ Hpre) as [Hr Hall].
  exists out; split; [exact Hpre|]; split; [|exact Hall].
  rewrite Hr; reflexivity.
Defined.

Lemma preprocess_needs_sales_and_profit_witness :
  has_column "Order Date" Sample.orders_without_sales = true
  /\ has_column "Ship Date" Sample.orders_without_sales = true
  /\ has_column "Sales" Sample.orders_without_sales = false
  /\ preprocess Sample.to_datetime_cell Sample.to_numeric_cell
       Sample.orders_without_sales
     = ([], inl (KeyError ["Sales"])).
Proof.
  split; [reflexivity|]; split; [reflexivity|]; split; [reflexivity|].
  apply (@preprocess_needs_sales_and_profit Sample.to_datetime_cell
           Sample.to_numeric_cell Sample.orders_without_sales);
    reflexivity.
Defined.

Lemma preprocess_idempotent_witness :
  wf_df Sample.orders = true
  /\ exists y,
       preprocess Sample.to_datetime_cell Sample.to_numeric_cell Sample.orders
       = ([], inr y)
       /\ length (index y) = 2
       /\ preprocess Sample.to_datetime_cell Sample.to_numeric_cell y
          = ([], inr y).
Proof.
  split; [reflexivity|].
  destruct (@preprocess_idempotent Sample.to_datetime_cell Sample.to_numeric_cell
              sample_to_datetime_keeps sample_to_numeric_keeps
              Sample.orders eq_refl) as [_ Hfix].
  eexists; split; [vm_compute; reflexivity|]; split; [reflexivity|].
  apply (Hfix []); reflexivity.
Defined.

(** ** More of the code on the reference interpretation *)

Lemma sample_insert_permutes (s : string) (l : list string) :
  Permutation (s :: l) (Sample.insert s l).
Proof.
  induction l as [|t l IH]; simpl; [apply Permutation_refl|].
  destruct (s <=? t)%string; [apply Permutation_refl|].
  eapply perm_trans; [apply perm_swap|]; now apply perm_skip.
Qed.

Lemma sample_sort_permutes (l : list string) :
  Permutation l (fold_right Sample.insert [] l).
Proof.
  induction l as [|s l IH]; simpl; [constructor|].
  eapply perm_trans; [apply perm_skip, IH|apply sample_insert_permutes].
Qed.

Lemma sample_strings_of (l : list cell) : forall ss,
  Sample.strings_of l = Some ss -> l = map Str ss.
Proof.
  induction l as [|c l IH]; simpl; intros ss H.
  - now injection H as <-.
  - destruct c; try discriminate H.
    destruct (Sample.strings_of l) as [ss'|]; [|discriminate H].
    injection H as <-; simpl; now rewrite (IH ss' eq_refl).
Qed.

Lemma sample_sorted_permutes (l l' : list cell) :
  Sample.sorted l = inr l' -> Permutation l l'.
Proof.
  unfold Sample.sorted.
  destruct (Sample.strings_of l) as [ss|] eqn:E.
  - intros [= <-]; rewrite (sample_strings_of l E).
    apply Permutation_map, sample_sort_permutes.
  - destruct l as [|c [|d l]]; intros H; try discriminate H.
    injection H as <-; apply Permutation_refl.
Qed.

Lemma spreadsheet_extension_any_case_witness :
  (PyStr.lower ".XLSX" = ".xlsx" \/ PyStr.lower ".XLSX" = ".xls")
  /\ read_source Sample.no_file Sample.excel_reader Sample.csv_reader None
       (Some (mkUploadedFile "Book.XLSX" []))
     = inr Sample.decoded.
Proof.
  split; [left; reflexivity|].
  destruct (@spreadsheet_extension_any_case Sample.no_file Sample.excel_reader
              Sample.csv_reader None "Book" ".XLSX" [] (or_introl eq_refl))
    as [H _].
  exact H.
Defined.


Lemma preprocess_output_typed_witness :
  wf_df Sample.orders = true
  /\ exists out,
       preprocess Sample.to_datetime_cell Sample.to_numeric_cell Sample.orders
       = ([], inr out)
       /\ typed_table out.
Proof.
  split; [reflexivity|].
  eexists; split; [vm_compute; reflexivity|].
  apply (@preprocess_output_typed Sample.to_datetime_cell Sample.to_numeric_cell
           Sample.orders [] _ eq_refl eq_refl).
Defined.

Lemma preprocess_column_order_witness :
  has_column "Order Date (Date)" Sample.orders = false
  /\ exists out,
       preprocess Sample.to_datetime_cell Sample.to_numeric_cell Sample.orders
       = ([], inr out)
       /\ columns out = columns Sample.orders ++ ["Order Date (Date)"].
Proof.
  split; [reflexivity|].
  eexists; split; [vm_compute; reflexivity|].
  apply (@preprocess_column_order Sample.to_datetime_cell Sample.to_numeric_cell
           Sample.orders [] _ eq_refl).
Defined.

Lemma preprocess_passes_other_columns_witness :
  wf_df Sample.orders = true
  /\ exists out,
       preprocess Sample.to_datetime_cell Sample.to_numeric_cell Sample.orders
       = ([], inr out)
       /\ lookup "Region" (data out) = Some [Str "East"; Str "East"].
Proof.
  split; [reflexivity|].
  eexists; split; [vm_compute; reflexivity|].
  rewrite (@preprocess_passes_other_columns Sample.to_datetime_cell
             Sample.to_numeric_cell Sample.orders [] _ "Region" eq_refl);
    [reflexivity| |reflexivity].
  simpl; intros [H|[H|[H|[H|[H|[H|[H|[]]]]]]]]; discriminate H.
Defined.

Lemma preprocess_empty_table_witness :
  wf_df Sample.no_orders = true
  /\ index Sample.no_orders = []
  /\ exists out,
       preprocess Sample.to_datetime_cell Sample.to_numeric_cell Sample.no_orders
       = ([], inr out)
       /\ index out = []
       /\ Forall (fun lc => snd lc = []) (data out).
Proof.
  split; [reflexivity|]; split; [reflexivity|].
  apply (@preprocess_empty_table Sample.to_datetime_cell Sample.to_numeric_cell
           Sample.no_orders); reflexivity.
Defined.

Lemma smart_parse_datetime_idempotent_witness :
  smart_parse_datetime Sample.to_datetime_cell
    (smart_parse_datetime Sample.to_datetime_cell Sample.day_first_dates)
  = smart_parse_datetime Sample.to_datetime_cell Sample.day_first_dates.
Proof.
  apply (@smart_parse_datetime_idempotent Sample.to_datetime_cell
           sample_to_datetime_keeps Sample.day_first_dates).
Defined.

Lemma majority_null_result_is_day_first_witness :
  length Sample.mostly_unreadable
  < 2 * count_na (smart_parse_datetime Sample.to_datetime_cell
                    Sample.mostly_unreadable)
  /\ length Sample.mostly_unreadable
     < 2 * count_na (to_datetime Sample.to_datetime_cell false
                       Sample.mostly_unreadable)
  /\ smart_parse_datetime_calls Sample.to_datetime_cell Sample.mostly_unreadable
     = ([false; true],
        to_datetime Sample.to_datetime_cell true Sample.mostly_unreadable).
Proof.
  split; [vm_compute; lia|].
  apply (@majority_null_result_is_day_first Sample.to_datetime_cell
           Sample.mostly_unreadable).
  vm_compute; lia.
Defined.

Lemma apply_filters_rows_witness :
  aligned Sample.orders = true
  /\ first_unfilterable Sample.orders [Str "East"] [] [] = None
  /\ exists out,
       apply_filters Sample.orders [Str "East"] [] [] = ([], inr out)
       /\ map fst (rows out) = [0; 2]%Z.
Proof.
  split; [reflexivity|]; split; [reflexivity|].
  destruct (@apply_filters_rows Sample.orders [Str "East"] [] [] eq_refl eq_refl)
    as (out & Hout & Hrows).
  exists out; split; [exact Hout|]; rewrite Hrows; reflexivity.
Defined.

Lemma apply_filters_keeps_columns_witness :
  exists out,
    apply_filters Sample.orders [Str "West"] [Str "Technology"] [] = ([], inr out)
    /\ columns out = columns Sample.orders
    /\ length (index out) <= length (index Sample.orders).
Proof.
  eexists; split; [vm_compute; reflexivity|].
  destruct (@apply_filters_keeps_columns Sample.orders [Str "West"]
              [Str "Technology"] [] [] _ eq_refl) as (_ & Hc & Hl & _).
  split; [exact Hc|exact Hl].
Defined.

Lemma sidebar_selection_never_raises_witness :
  options Sample.sorted "Sub-Category" Sample.normalized_orders = ([], inr [])
  /\ options Sample.sorted "Region" Sample.normalized_orders
     = ([], inr [Str "East"; Str "West"])
  /\ exists out,
       apply_filters Sample.normalized_orders [Str "West"] [Str "Furniture"] []
       = ([], inr out).
Proof.
  split; [reflexivity|]; split; [reflexivity|].
  apply (@sidebar_selection_never_raises Sample.sorted Sample.normalized_orders
           [] [] [] [Str "East"; Str "West"] [Str "Furniture"; Str "Technology"]
           [] [Str "West"] [Str "Furniture"] [] eq_refl eq_refl eq_refl).
  - intros c [<-|[]]; simpl; auto.
  - intros c [<-|[]]; simpl; auto.
  - intros c [].
Defined.

Lemma default_selection_rows_witness :
  aligned Sample.normalized_orders = true
  /\ lookup "Region" (data Sample.normalized_orders)
     = Some [Str "West"; Str "East"; NA]
  /\ exists out,
       apply_filters Sample.normalized_orders [Str "East"; Str "West"]
         [Str "Furniture"; Str "Technology"] []
       = ([], inr out)
       /\ map fst (rows out) = [0; 2]%Z.
Proof.
  split; [reflexivity|]; split; [reflexivity|].
  destruct (@default_selection_rows Sample.sorted sample_sorted_permutes
              Sample.normalized_orders [] [] []
              [Str "East"; Str "West"] [Str "Furniture"; Str "Technology"] []
              eq_refl eq_refl eq_refl eq_refl) as (out & Hout & Hrows).
  exists out; split; [exact Hout|]; rewrite Hrows; reflexivity.
Defined.

Lemma options_cover_column_witness :
  options Sample.sorted "Region" Sample.normalized_orders
  = ([], inr [Str "East"; Str "West"])
  /\ NoDup [Str "East"; Str "West"]
  /\ isin [Str "East"; Str "West"] NA = false.
Proof.
  split; [reflexivity|].
  destruct (@options_cover_column Sample.sorted sample_sorted_permutes "Region"
              Sample.normalized_orders [] [Str "East"; Str "West"]
              [Str "West"; Str "East"; NA] eq_refl eq_refl)
    as (_ & Hnd & _ & Hin).
  split; [exact Hnd|].
  apply (Hin NA); simpl; auto.
Defined.

Lemma filtered_table_typed_witness :
  wf_df Sample.orders = true
  /\ exists y z,
       preprocess Sample.to_datetime_cell Sample.to_numeric_cell Sample.orders
       = ([], inr y)
       /\ apply_filters y [Str "East"] [] [] = ([], inr z)
       /\ columns z = columns y
       /\ typed_table z.
Proof.
  split; [reflexivity|].
  eexists; eexists; split; [vm_compute; reflexivity|].
  split; [vm_compute; reflexivity|].
  apply (@filtered_table_typed Sample.to_datetime_cell Sample.to_numeric_cell
           Sample.orders _ _ [] [] [Str "East"] [] [] eq_refl eq_refl eq_refl).
Defined.
